(** * Rointe climate entity: a shallow embedding of
      [custom_components/rointe/climate.py]

    The entity bridge [RointeHeater] receives pushed device-state
    dictionaries ([_handle_update]) and translates user commands
    ([async_set_hvac_mode], [async_set_preset_mode],
    [async_set_temperature]) into sends on the device channel [ws].

    Python values are embedded as the type [pyval]; dictionaries are
    finite maps with string keys.  Methods mutate [self] and may raise, so
    they live in a state-and-exception monad [M] whose state survives a
    raise, as attribute assignments do in Python.  Calls of the logger
    have no effect on the entity and are left out, and so are the display
    name of the entity and its subscription to the dispatcher. *)

From Stdlib Require Import ZArith QArith String Ascii List Bool Lia.
From stdpp Require Import gmap strings list fin_maps.

Local Open Scope string_scope.
Local Open Scope Z_scope.

(** ** Python values *)

(** A Python [float].  Finite doubles are dyadic rationals and are embedded
    by their exact value; the comparisons of the program are exact on them. *)
Inductive pyfloat :=
| FNan
| FInf (negative : bool)
| FFin (q : Q).

#[warnings="-register-all"]
Inductive pyval :=
| VNone
| VBool (b : bool)
| VInt (z : Z)
| VFloat (f : pyfloat)
| VStr (s : string)
| VDict (d : gmap string pyval).

(** ** Exceptions.  Every class below derives from [Exception]. *)

Inductive exn_class :=
| OverflowError
| TypeError
| AttributeError
| TransportError
| RointeDeviceError.

Record exn := Exn { exn_cls : exn_class; exn_msg : string }.

Inductive result (A : Type) :=
| Ok (a : A)
| Raise (e : exn).
Arguments Ok {A} a.
Arguments Raise {A} e.

(** ** Floats: comparison and conversion *)

(** [a <= b] on floats: false as soon as one side is NaN. *)
Definition fle (a b : pyfloat) : bool :=
  match a, b with
  | FNan, _ | _, FNan => false
  | FInf true, _ => true
  | FInf false, FInf negative => negb negative
  | FInf false, FFin _ => false
  | FFin _, FInf negative => negb negative
  | FFin p, FFin q => Qle_bool p q
  end.

(** Nearest double of an integer, ties to even: below [2^53] the integer
    itself, above it the 53 leading bits rounded. *)
Definition round_to_double (z : Z) : Z :=
  let a := Z.abs z in
  if a <? 2 ^ 53 then z
  else
    let sh := Z.log2 a - 52 in
    let m := a / 2 ^ sh in
    let r := a mod 2 ^ sh in
    let half := 2 ^ (sh - 1) in
    let m' := if (half <? r) || ((r =? half) && Z.odd m) then m + 1 else m in
    Z.sgn z * (m' * 2 ^ sh).

(** [float(n)] for an [int]: raises [OverflowError] when the nearest double
    would be infinite. *)
Definition float_of_int (z : Z) : result pyfloat :=
  let r := round_to_double z in
  if Z.abs r <? 2 ^ 1024 then Ok (FFin (inject_Z r))
  else Raise (Exn OverflowError "int too large to convert to float").

(** [isinstance(v, (int, float))]; [bool] is a subclass of [int]. *)
Definition isinstance_int_float (v : pyval) : bool :=
  match v with
  | VBool _ | VInt _ | VFloat _ => true
  | _ => false
  end.

(** [float(v)] on the values that pass [isinstance_int_float]. *)
Definition py_float (v : pyval) : result pyfloat :=
  match v with
  | VFloat f => Ok f
  | VInt z => float_of_int z
  | VBool b => Ok (FFin (inject_Z (Z.b2z b)))
  | _ => Raise (Exn TypeError "float() argument must be a string or a real number")
  end.

(** The exact numeric value of a number, as Python's mixed [int]/[float]
    comparisons see it (no rounding of the integer). *)
Definition as_number (v : pyval) : option pyfloat :=
  match v with
  | VFloat f => Some f
  | VInt z => Some (FFin (inject_Z z))
  | VBool b => Some (FFin (inject_Z (Z.b2z b)))
  | _ => None
  end.

(** [lo <= v <= hi] with float bounds: a chained comparison, which raises
    [TypeError] when [v] is not a number. *)
Definition chained_le (lo : pyfloat) (v : pyval) (hi : pyfloat) : result bool :=
  match as_number v with
  | Some f => Ok (fle lo f && fle f hi)
  | None => Raise (Exn TypeError "'<=' not supported between these instances")
  end.

(** Truth value of an object ([if v], [not v], [v or d]). *)
Definition truthy (v : pyval) : bool :=
  match v with
  | VNone => false
  | VBool b => b
  | VInt z => negb (z =? 0)
  | VFloat FNan => true
  | VFloat (FInf _) => true
  | VFloat (FFin q) => negb (Qeq_bool q 0)
  | VStr s => negb (String.eqb s "")
  | VDict d => negb (bool_decide (d = ∅))
  end.

(** ** Strings *)

(** [str.lower()] on the ASCII letters; other bytes are left as they are.
    It stands for [str.lower] in the comparison of the status only.
    Strings are UTF-8 bytes.  No character outside of ASCII lowers to one of
    the letters of "comfort", "eco" or "ice", so the comparisons of a lowered
    status with these words are the ones of Python. *)
Definition lower_ascii (c : ascii) : ascii :=
  let n := nat_of_ascii c in
  if (65 <=? n)%nat && (n <=? 90)%nat then ascii_of_nat (n + 32) else c.

Fixpoint lower (s : string) : string :=
  match s with
  | EmptyString => EmptyString
  | String c s' => String (lower_ascii c) (lower s')
  end.

(** [needle in hay] on strings: [needle] occurs as a substring. *)
Fixpoint str_in (needle hay : string) : bool :=
  String.prefix needle hay ||
  match hay with
  | EmptyString => false
  | String _ hay' => str_in needle hay'
  end.

(** ** Constants of the host platform and of the module *)

Module HVACMode.
Inductive t := OFF | HEAT | COOL | HEAT_COOL | AUTO | DRY | FAN_ONLY.
Definition eqb (a b : t) : bool :=
  match a, b with
  | OFF, OFF | HEAT, HEAT | COOL, COOL | HEAT_COOL, HEAT_COOL
  | AUTO, AUTO | DRY, DRY | FAN_ONLY, FAN_ONLY => true
  | _, _ => false
  end.
End HVACMode.

Module HVACAction.
Inductive t := OFF | HEATING.
End HVACAction.

Definition PRESET_ECO : string := "eco".
Definition PRESET_COMFORT : string := "comfort".
Definition ATTR_TEMPERATURE : string := "temperature".

Definition HVAC_MODES : list HVACMode.t := [HVACMode.OFF; HVACMode.HEAT].
Definition PRESET_MODES : list string := [PRESET_ECO; PRESET_COMFORT].

Definition MIN_TEMP : pyfloat := FFin 5.
Definition MAX_TEMP : pyfloat := FFin 35.

(** ** The entity and its world *)

(** What the entity does to its collaborators: a call of [ws.send], of
    [async_write_ha_state] and of [schedule_update_ha_state]. *)
Inductive event :=
| EvSend (device_id : pyval) (updates : gmap string pyval)
| EvWriteState
| EvScheduleUpdate.

(** The device channel.  [ws.send] either completes ([None]) or raises; what
    it does may depend on everything that happened before the call. *)
Definition channel : Type :=
  list event → pyval → gmap string pyval → option exn.

Record RointeHeater := mkRointeHeater {
  ws : channel;
  device_id : pyval;
  _device_info : gmap string pyval;
  _attr_available : bool;
  _attr_min_temp : pyfloat;
  _attr_max_temp : pyfloat;
  _attr_hvac_mode : HVACMode.t;
  _attr_current_temperature : pyfloat;
  _attr_target_temperature : pyval;
  _attr_preset_mode : option string;
  _attr_hvac_action : HVACAction.t;
  _current_temp : pyfloat;
  _target_temp : pyval;
  _available : bool;
  _device_model : pyval;
  _device_category : string;
  _device_status : pyval;
  _online : pyval;
  _last_seen : pyval
}.

(** Attribute assignments, one per attribute the methods write. *)
Definition set_attr_hvac_mode (v : HVACMode.t) (h : RointeHeater) : RointeHeater :=
  mkRointeHeater (ws h) (device_id h) (_device_info h) (_attr_available h)
    (_attr_min_temp h) (_attr_max_temp h) v (_attr_current_temperature h)
    (_attr_target_temperature h) (_attr_preset_mode h) (_attr_hvac_action h)
    (_current_temp h) (_target_temp h) (_available h) (_device_model h)
    (_device_category h) (_device_status h) (_online h) (_last_seen h).

Definition set_attr_current_temperature (v : pyfloat) (h : RointeHeater) : RointeHeater :=
  mkRointeHeater (ws h) (device_id h) (_device_info h) (_attr_available h)
    (_attr_min_temp h) (_attr_max_temp h) (_attr_hvac_mode h) v
    (_attr_target_temperature h) (_attr_preset_mode h) (_attr_hvac_action h)
    (_current_temp h) (_target_temp h) (_available h) (_device_model h)
    (_device_category h) (_device_status h) (_online h) (_last_seen h).

Definition set_attr_target_temperature (v : pyval) (h : RointeHeater) : RointeHeater :=
  mkRointeHeater (ws h) (device_id h) (_device_info h) (_attr_available h)
    (_attr_min_temp h) (_attr_max_temp h) (_attr_hvac_mode h)
    (_attr_current_temperature h) v (_attr_preset_mode h) (_attr_hvac_action h)
    (_current_temp h) (_target_temp h) (_available h) (_device_model h)
    (_device_category h) (_device_status h) (_online h) (_last_seen h).

Definition set_attr_preset_mode (v : option string) (h : RointeHeater) : RointeHeater :=
  mkRointeHeater (ws h) (device_id h) (_device_info h) (_attr_available h)
    (_attr_min_temp h) (_attr_max_temp h) (_attr_hvac_mode h)
    (_attr_current_temperature h) (_attr_target_temperature h) v
    (_attr_hvac_action h) (_current_temp h) (_target_temp h) (_available h)
    (_device_model h) (_device_category h) (_device_status h) (_online h)
    (_last_seen h).

Definition set_attr_hvac_action (v : HVACAction.t) (h : RointeHeater) : RointeHeater :=
  mkRointeHeater (ws h) (device_id h) (_device_info h) (_attr_available h)
    (_attr_min_temp h) (_attr_max_temp h) (_attr_hvac_mode h)
    (_attr_current_temperature h) (_attr_target_temperature h)
    (_attr_preset_mode h) v (_current_temp h) (_target_temp h) (_available h)
    (_device_model h) (_device_category h) (_device_status h) (_online h)
    (_last_seen h).

Definition set_current_temp (v : pyfloat) (h : RointeHeater) : RointeHeater :=
  mkRointeHeater (ws h) (device_id h) (_device_info h) (_attr_available h)
    (_attr_min_temp h) (_attr_max_temp h) (_attr_hvac_mode h)
    (_attr_current_temperature h) (_attr_target_temperature h)
    (_attr_preset_mode h) (_attr_hvac_action h) v (_target_temp h)
    (_available h) (_device_model h) (_device_category h) (_device_status h)
    (_online h) (_last_seen h).

Definition set_target_temp (v : pyval) (h : RointeHeater) : RointeHeater :=
  mkRointeHeater (ws h) (device_id h) (_device_info h) (_attr_available h)
    (_attr_min_temp h) (_attr_max_temp h) (_attr_hvac_mode h)
    (_attr_current_temperature h) (_attr_target_temperature h)
    (_attr_preset_mode h) (_attr_hvac_action h) (_current_temp h) v
    (_available h) (_device_model h) (_device_category h) (_device_status h)
    (_online h) (_last_seen h).

Definition set_available (v : bool) (h : RointeHeater) : RointeHeater :=
  mkRointeHeater (ws h) (device_id h) (_device_info h) (_attr_available h)
    (_attr_min_temp h) (_attr_max_temp h) (_attr_hvac_mode h)
    (_attr_current_temperature h) (_attr_target_temperature h)
    (_attr_preset_mode h) (_attr_hvac_action h) (_current_temp h)
    (_target_temp h) v (_device_model h) (_device_category h)
    (_device_status h) (_online h) (_last_seen h).

Definition set_device_status (v : pyval) (h : RointeHeater) : RointeHeater :=
  mkRointeHeater (ws h) (device_id h) (_device_info h) (_attr_available h)
    (_attr_min_temp h) (_attr_max_temp h) (_attr_hvac_mode h)
    (_attr_current_temperature h) (_attr_target_temperature h)
    (_attr_preset_mode h) (_attr_hvac_action h) (_current_temp h)
    (_target_temp h) (_available h) (_device_model h) (_device_category h)
    v (_online h) (_last_seen h).

Definition set_online (v : pyval) (h : RointeHeater) : RointeHeater :=
  mkRointeHeater (ws h) (device_id h) (_device_info h) (_attr_available h)
    (_attr_min_temp h) (_attr_max_temp h) (_attr_hvac_mode h)
    (_attr_current_temperature h) (_attr_target_temperature h)
    (_attr_preset_mode h) (_attr_hvac_action h) (_current_temp h)
    (_target_temp h) (_available h) (_device_model h) (_device_category h)
    (_device_status h) v (_last_seen h).

Definition set_last_seen (v : pyval) (h : RointeHeater) : RointeHeater :=
  mkRointeHeater (ws h) (device_id h) (_device_info h) (_attr_available h)
    (_attr_min_temp h) (_attr_max_temp h) (_attr_hvac_mode h)
    (_attr_current_temperature h) (_attr_target_temperature h)
    (_attr_preset_mode h) (_attr_hvac_action h) (_current_temp h)
    (_target_temp h) (_available h) (_device_model h) (_device_category h)
    (_device_status h) (_online h) v.

(** The entity together with the history of its calls on the channel and
    on the host. *)
Record world := mkWorld { self : RointeHeater; trace : list event }.

(** ** The monad of methods: state that survives a raise *)

Definition M (A : Type) : Type := world → result A * world.

#[global] Instance M_ret : MRet M := λ A a w, (Ok a, w).

#[global] Instance M_bind : MBind M := λ A B f m w,
  match m w with
  | (Ok a, w') => f a w'
  | (Raise e, w') => (Raise e, w')
  end.

Definition raise {A : Type} (e : exn) : M A := λ w, (Raise e, w).

(** [try: body except Exception as e: handler e] *)
Definition try_except {A : Type} (body : M A) (handler : exn → M A) : M A :=
  λ w, match body w with
       | (Ok a, w') => (Ok a, w')
       | (Raise e, w') => handler e w'
       end.

Definition lift {A : Type} (r : result A) : M A := λ w, (r, w).

(** The world a method leaves behind, and how it ends. *)
Definition exec {A : Type} (m : M A) (w : world) : world := snd (m w).
Definition outcome {A : Type} (m : M A) (w : world) : result A := fst (m w).

(** [self.attr = v] *)
Definition assign (f : RointeHeater → RointeHeater) : M unit :=
  λ w, (Ok tt, mkWorld (f (self w)) (trace w)).

(** read an attribute of [self] *)
Definition attr {A : Type} (f : RointeHeater → A) : M A :=
  λ w, (Ok (f (self w)), w).

Definition emit (ev : event) : M unit :=
  λ w, (Ok tt, mkWorld (self w) (trace w ++ [ev])).

(** [await self.ws.send(device_id, updates)] *)
Definition ws_send (dev : pyval) (updates : gmap string pyval) : M unit :=
  λ w, let w' := mkWorld (self w) (trace w ++ [EvSend dev updates]) in
       match ws (self w) (trace w) dev updates with
       | None => (Ok tt, w')
       | Some e => (Raise e, w')
       end.

Definition async_write_ha_state : M unit := emit EvWriteState.
Definition schedule_update_ha_state : M unit := emit EvScheduleUpdate.

(** [d.get(key, default)] *)
Definition dict_get (d : gmap string pyval) (key : string) (dflt : pyval) : pyval :=
  default dflt (d !! key).

(** ** Methods of [RointeHeater] *)

(** The properties [min_temp] and [max_temp] are inherited from the host's
    [ClimateEntity]; they return the attribute set by the constructor. *)
Definition min_temp (h : RointeHeater) : pyfloat := _attr_min_temp h.
Definition max_temp (h : RointeHeater) : pyfloat := _attr_max_temp h.

(** The property [hvac_action]. *)
Definition hvac_action (h : RointeHeater) : HVACAction.t :=
  if HVACMode.eqb (_attr_hvac_mode h) HVACMode.OFF then HVACAction.OFF
  else HVACAction.HEATING.

Definition _handle_update (state : gmap string pyval) : M unit :=
  try_except
    (ds ← attr _device_status;
     assign (set_device_status (dict_get state "deviceStatus" ds));;
     on ← attr _online;
     assign (set_online (dict_get state "online" on));;
     ls ← attr _last_seen;
     assign (set_last_seen (dict_get state "lastSeen" ls));;
     (* Current temperature *)
     match state !! "temp" with
     | Some v =>
         if isinstance_int_float v then
           temp ← lift (py_float v);
           if fle MIN_TEMP temp && fle temp MAX_TEMP then
             assign (set_current_temp temp);;
             assign (set_attr_current_temperature temp)
           else mret tt
         else mret tt
     | None => mret tt
     end;;
     (* Target temperature *)
     match state !! "um_max_temp" with
     | Some v =>
         if isinstance_int_float v then
           temp ← lift (py_float v);
           if fle MIN_TEMP temp && fle temp MAX_TEMP then
             assign (set_target_temp (VFloat temp));;
             assign (set_attr_target_temperature (VFloat temp))
           else mret tt
         else mret tt
     | None => mret tt
     end;;
     (* HVAC mode: "status" in state and isinstance(state["status"], str) *)
     match state !! "status" with
     | Some (VStr s) =>
         let status := lower s in
         if String.eqb status "comfort" then
           assign (set_attr_hvac_mode HVACMode.HEAT);;
           assign (set_attr_preset_mode (Some PRESET_COMFORT));;
           assign (set_attr_hvac_action HVACAction.HEATING)
         else if String.eqb status "eco" then
           assign (set_attr_hvac_mode HVACMode.HEAT);;
           assign (set_attr_preset_mode (Some PRESET_ECO));;
           assign (set_attr_hvac_action HVACAction.HEATING)
         else if String.eqb status "ice" then
           assign (set_attr_hvac_mode HVACMode.OFF);;
           assign (set_attr_preset_mode None);;
           assign (set_attr_hvac_action HVACAction.OFF)
         else mret tt
     | _ => mret tt
     end;;
     assign (set_available true);;
     async_write_ha_state)
    (λ e, mret tt).

Definition async_set_hvac_mode (hvac_mode : HVACMode.t) : M unit :=
  if negb (existsb (HVACMode.eqb hvac_mode) HVAC_MODES) then mret tt
  else
    try_except
      (let updates : gmap string pyval :=
         if HVACMode.eqb hvac_mode HVACMode.HEAT then
           {[ "status" := VStr "comfort"; "power" := VInt 2 ]}
         else if HVACMode.eqb hvac_mode HVACMode.OFF then
           {[ "status" := VStr "eco"; "power" := VInt 1 ]}
         else ∅ in
       dev ← attr device_id;
       ws_send dev updates;;
       assign (set_attr_hvac_mode hvac_mode);;
       (if HVACMode.eqb hvac_mode HVACMode.HEAT then
          assign (set_attr_preset_mode (Some PRESET_COMFORT));;
          assign (set_attr_hvac_action HVACAction.HEATING)
        else
          assign (set_attr_preset_mode None);;
          assign (set_attr_hvac_action HVACAction.OFF));;
       async_write_ha_state)
      (λ e,
       assign (set_available false);;
       async_write_ha_state;;
       raise (Exn RointeDeviceError ("Failed to set HVAC mode: " +:+ exn_msg e))).

Definition async_turn_on : M unit := async_set_hvac_mode HVACMode.HEAT.
Definition async_turn_off : M unit := async_set_hvac_mode HVACMode.OFF.

Definition async_set_preset_mode (preset_mode : string) : M unit :=
  try_except
    (let updates : gmap string pyval :=
       if String.eqb preset_mode PRESET_COMFORT then
         {[ "status" := VStr "comfort"; "power" := VInt 2 ]}
       else if String.eqb preset_mode PRESET_ECO then
         {[ "status" := VStr "eco"; "power" := VInt 1 ]}
       else ∅ in
     dev ← attr device_id;
     ws_send dev updates;;
     assign (set_attr_preset_mode (Some preset_mode));;
     (if existsb (String.eqb preset_mode) [PRESET_COMFORT; PRESET_ECO] then
        assign (set_attr_hvac_mode HVACMode.HEAT);;
        assign (set_attr_hvac_action HVACAction.HEATING)
      else
        assign (set_attr_hvac_mode HVACMode.OFF);;
        assign (set_attr_hvac_action HVACAction.OFF));;
     async_write_ha_state)
    (λ e, raise (Exn RointeDeviceError ("Failed to set preset: " +:+ exn_msg e))).

Definition async_set_temperature (kwargs : gmap string pyval) : M unit :=
  match dict_get kwargs ATTR_TEMPERATURE VNone with
  | VNone => mret tt
  | temperature =>
      lo ← attr min_temp;
      hi ← attr max_temp;
      in_range ← lift (chained_le lo temperature hi);
      if negb in_range then mret tt
      else
        assign (set_target_temp temperature);;
        assign (set_attr_target_temperature temperature);;
        let updates : gmap string pyval := {[ "um_max_temp" := temperature ]} in
        dev ← attr device_id;
        ws_send dev updates;;
        schedule_update_ha_state
  end.

(** ** Construction and platform setup *)

#[global] Instance result_ret : MRet result := λ A a, Ok a.

#[global] Instance result_bind : MBind result := λ A B f r,
  match r with
  | Ok a => f a
  | Raise e => Raise e
  end.

Section WithDeviceModels.

(** [DEVICE_MODELS] is imported from [.const]: a dictionary from
    model-name substrings to category labels, in insertion order. *)
Variable DEVICE_MODELS : list (string * string).

(** Python's [str.lower], on any text.  The category loop applies it to the
    keys of the table and to the model, which need not be ASCII.  On UTF-8
    text an occurrence of bytes is an occurrence of characters, so [str_in]
    is the operator [in] on what [str_lower] returns. *)
Variable str_lower : string → string.

(** The loop [for model_key, category in DEVICE_MODELS.items()] with its
    [break]; [.lower()] raises on a model that is not a string. *)
Fixpoint category_loop (items : list (string * string)) (model : pyval)
  : result (option string) :=
  match items with
  | [] => Ok None
  | (model_key, category) :: rest =>
      match model with
      | VStr m =>
          if str_in (str_lower model_key) (str_lower m) then Ok (Some category)
          else category_loop rest model
      | _ => Raise (Exn AttributeError "object has no attribute 'lower'")
      end
  end.

Definition __init__ (ws : channel) (device_id : pyval)
    (device_info : option (gmap string pyval)) : result RointeHeater :=
  (* device_info or {} *)
  let info : gmap string pyval :=
    match device_info with
    | Some d => if truthy (VDict d) then d else ∅
    | None => ∅
    end in
  let model := dict_get info "model" VNone in
  (* Category *)
  found ← (if truthy model then category_loop DEVICE_MODELS model
           else Ok None);
  let category :=
    match found with
    | Some c => if negb (String.eqb c "") then c else "radiator"
    | None => "radiator"
    end in
  Ok {| ws := ws;
        device_id := device_id;
        _device_info := info;
        _attr_available := true;
        _attr_min_temp := FFin 7;
        _attr_max_temp := FFin 30;
        _attr_hvac_mode := HVACMode.OFF;
        _attr_current_temperature := FFin 20;
        _attr_target_temperature := VFloat (FFin 21);
        _attr_preset_mode := Some PRESET_ECO;
        _attr_hvac_action := HVACAction.OFF;
        _current_temp := FFin 20;
        _target_temp := VFloat (FFin 21);
        _available := true;
        _device_model := model;
        _device_category := category;
        _device_status := dict_get info "deviceStatus" (VDict ∅);
        _online := dict_get info "online" (VBool true);
        _last_seen := dict_get info "lastSeen" VNone |}.

(** The body of the loop of [async_setup_entry] for one device record:
    [Ok None] is the [continue] on a missing id. *)
Definition create_entity (ws : channel) (dev : pyval)
  : result (option RointeHeater) :=
  match dev with
  | VDict d =>
      let device_id := dict_get d "id" VNone in
      if negb (truthy device_id) then Ok None
      else
        entity ← __init__ ws device_id (Some d);
        Ok (Some entity)
  | _ => Raise (Exn AttributeError "object has no attribute 'get'")
  end.

(** [for dev in devices: try: ... except Exception: continue] *)
Fixpoint setup_loop (ws : channel) (devices : list pyval)
    (entities : list RointeHeater) : list RointeHeater :=
  match devices with
  | [] => entities
  | dev :: rest =>
      match create_entity ws dev with
      | Ok (Some entity) => setup_loop ws rest (entities ++ [entity])
      | Ok None => setup_loop ws rest entities
      | Raise _ => setup_loop ws rest entities
      end
  end.

(** [async_setup_entry], on the channel and the device list stored for the
    entry.  The result is the list handed to [async_add_entities], or
    [None] when that callback is not called. *)
Definition async_setup_entry (ws : channel) (devices : list pyval)
  : result (option (list RointeHeater)) :=
  match devices with
  | [] => Ok None
  | _ =>
      let entities := setup_loop ws devices [] in
      match entities with
      | [] => Ok None
      | _ => Ok (Some entities)
      end
  end.

(** ** Reachable states *)

Inductive op :=
| OpHandleUpdate (state : gmap string pyval)
| OpSetHvacMode (hvac_mode : HVACMode.t)
| OpSetPresetMode (preset_mode : string)
| OpSetTemperature (kwargs : gmap string pyval).

Definition run_op (o : op) : M unit :=
  match o with
  | OpHandleUpdate state => _handle_update state
  | OpSetHvacMode hvac_mode => async_set_hvac_mode hvac_mode
  | OpSetPresetMode preset_mode => async_set_preset_mode preset_mode
  | OpSetTemperature kwargs => async_set_temperature kwargs
  end.

Inductive reachable : world → Prop :=
| reach_init ws device_id device_info h :
    __init__ ws device_id device_info = Ok h →
    reachable (mkWorld h [])
| reach_step w o :
    reachable w →
    reachable (exec (run_op o) w).

End WithDeviceModels.

(** ** Vocabulary of the properties *)

(** The three attributes the status of a device drives. *)
Definition mode_fields (h : RointeHeater)
  : HVACMode.t * option string * HVACAction.t :=
  (_attr_hvac_mode h, _attr_preset_mode h, _attr_hvac_action h).

(** [float(state[key])] does not raise, or is not evaluated. *)
Definition converts (state : gmap string pyval) (key : string) : bool :=
  match state !! key with
  | Some (VInt z) =>
      match float_of_int z with
      | Ok _ => true
      | Raise _ => false
      end
  | _ => true
  end.

(** The table of the status strings: what [s] asks of the entity [h'] that
    an update leaves, [h] being the entity before it. *)
Definition status_mapped (s : string) (h h' : RointeHeater) : Prop :=
  (lower s = "comfort" →
   mode_fields h' = (HVACMode.HEAT, Some PRESET_COMFORT, HVACAction.HEATING))
  ∧ (lower s = "eco" →
     mode_fields h' = (HVACMode.HEAT, Some PRESET_ECO, HVACAction.HEATING))
  ∧ (lower s = "ice" →
     mode_fields h' = (HVACMode.OFF, None, HVACAction.OFF))
  ∧ (lower s ≠ "comfort" → lower s ≠ "eco" → lower s ≠ "ice" →
     mode_fields h' = mode_fields h).

(** ** Example entities *)

(** A channel on which every send completes, and one on which every send
    raises. *)
Definition quiet_channel : channel := λ _ _ _, None.
Definition broken_channel : channel :=
  λ _ _ _, Some (Exn TransportError "connection lost").

(** The entity [RointeHeater(hass, ws, "heater-1", name, None)]. *)
Definition new_heater (ws : channel) : RointeHeater :=
  {| ws := ws;
     device_id := VStr "heater-1";
     _device_info := ∅;
     _attr_available := true;
     _attr_min_temp := FFin 7;
     _attr_max_temp := FFin 30;
     _attr_hvac_mode := HVACMode.OFF;
     _attr_current_temperature := FFin 20;
     _attr_target_temperature := VFloat (FFin 21);
     _attr_preset_mode := Some PRESET_ECO;
     _attr_hvac_action := HVACAction.OFF;
     _current_temp := FFin 20;
     _target_temp := VFloat (FFin 21);
     _available := true;
     _device_model := VNone;
     _device_category := "radiator";
     _device_status := VDict ∅;
     _online := VBool true;
     _last_seen := VNone |}.

Definition new_world (ws : channel) : world := mkWorld (new_heater ws) [].

(** Consistency of mode and preset, as the data model words it: HEAT pairs
    with ECO or COMFORT, OFF clears the preset and sets the action OFF. *)
Definition mode_preset_consistent (h : RointeHeater) : Prop :=
  (_attr_hvac_mode h = HVACMode.HEAT →
   _attr_preset_mode h = Some PRESET_ECO
   ∨ _attr_preset_mode h = Some PRESET_COMFORT)
  ∧ (_attr_hvac_mode h = HVACMode.OFF →
     _attr_preset_mode h = None ∧ _attr_hvac_action h = HVACAction.OFF).

(** What holds of mode and preset in the code: in OFF mode the preset is
    None, or still the ECO of the constructor, or a name outside of the
    two presets left by [async_set_preset_mode]. *)
Definition mode_preset_coherent (h : RointeHeater) : Prop :=
  (_attr_hvac_mode h = HVACMode.HEAT →
   _attr_preset_mode h = Some PRESET_ECO
   ∨ _attr_preset_mode h = Some PRESET_COMFORT)
  ∧ (_attr_hvac_mode h = HVACMode.OFF →
     _attr_hvac_action h = HVACAction.OFF
     ∧ (_attr_preset_mode h = None
        ∨ _attr_preset_mode h = Some PRESET_ECO
        ∨ ∃ p, _attr_preset_mode h = Some p
               ∧ p ≠ PRESET_ECO ∧ p ≠ PRESET_COMFORT)).

(** The ways one operation changes mode, preset and action. *)
Definition mode_step (before after : HVACMode.t * option string * HVACAction.t)
  : Prop :=
  after = before
  ∨ after = (HVACMode.HEAT, Some PRESET_COMFORT, HVACAction.HEATING)
  ∨ after = (HVACMode.HEAT, Some PRESET_ECO, HVACAction.HEATING)
  ∨ after = (HVACMode.OFF, None, HVACAction.OFF)
  ∨ ∃ p, p ≠ PRESET_ECO ∧ p ≠ PRESET_COMFORT
         ∧ after = (HVACMode.OFF, Some p, HVACAction.OFF).

(** The send of [updates] by the entity of [w] completes, or raises [e]. *)
Definition send_completes (w : world) (updates : gmap string pyval) : Prop :=
  ws (self w) (trace w) (device_id (self w)) updates = None.

Definition send_raises (w : world) (updates : gmap string pyval) (e : exn)
  : Prop :=
  ws (self w) (trace w) (device_id (self w)) updates = Some e.

(** The wire form of the modes and of the presets. *)
Definition comfort_wire : gmap string pyval :=
  {[ "status" := VStr "comfort"; "power" := VInt 2 ]}.
Definition eco_wire : gmap string pyval :=
  {[ "status" := VStr "eco"; "power" := VInt 1 ]}.

(** The attributes set once by the constructor. *)
Definition static_attrs (h : RointeHeater) : bool * pyfloat * pyfloat * pyval :=
  (_attr_available h, _attr_min_temp h, _attr_max_temp h, device_id h).

(** Mode → wire and preset → wire. *)
Definition mode_wire (hvac_mode : HVACMode.t) : gmap string pyval :=
  match hvac_mode with
  | HVACMode.HEAT => comfort_wire
  | HVACMode.OFF => eco_wire
  | _ => ∅
  end.

Definition preset_wire (preset_mode : string) : gmap string pyval :=
  if String.eqb preset_mode PRESET_COMFORT then comfort_wire
  else if String.eqb preset_mode PRESET_ECO then eco_wire
  else ∅.

(** The value of the first entry of the table whose key is a
    case-insensitive substring of the model string. *)
Definition first_match (table : list (string * string))
    (str_lower : string → string) (model : string) : option string :=
  snd <$> List.find (λ kc, str_in (str_lower (fst kc)) (str_lower model)) table.








(** A valid device record: it is a mapping, it has an id, and the
    constructor accepts it. *)
Definition valid_record (table : list (string * string))
    (str_lower : string → string) (ws : channel) (dev : pyval) : bool :=
  match dev with
  | VDict d =>
      truthy (dict_get d "id" VNone)
      && match __init__ table str_lower ws (dict_get d "id" VNone) (Some d) with
         | Ok _ => true
         | Raise _ => false
         end
  | _ => false
  end.

(** The entity [h] has been built from the record [dev]. *)
Definition built_from (table : list (string * string))
    (str_lower : string → string) (ws : channel) (dev : pyval)
    (h : RointeHeater) : Prop :=
  ∃ d, dev = VDict d
       ∧ __init__ table str_lower ws (dict_get d "id" VNone) (Some d) = Ok h.

(** "v is numeric and lo ≤ v ≤ hi" *)
Definition numeric_between (lo hi : Z) (v : pyval) : Prop :=
  match v with
  | VInt z => lo ≤ z ≤ hi
  | VBool b => lo ≤ Z.b2z b ≤ hi
  | VFloat (FFin q) => (inject_Z lo <= q <= inject_Z hi)%Q
  | _ => False
  end.

(** The stages of [_handle_update], named. *)

Definition copy_through (state : gmap string pyval) (h : RointeHeater)
  : RointeHeater :=
  set_last_seen (dict_get state "lastSeen" (_last_seen h))
    (set_online (dict_get state "online" (_online h))
       (set_device_status (dict_get state "deviceStatus" (_device_status h)) h)).

Definition update_current_temperature (state : gmap string pyval) : M unit :=
  match state !! "temp" with
  | Some v =>
      if isinstance_int_float v then
        temp ← lift (py_float v);
        if fle MIN_TEMP temp && fle temp MAX_TEMP then
          assign (set_current_temp temp);;
          assign (set_attr_current_temperature temp)
        else mret tt
      else mret tt
  | None => mret tt
  end.

Definition update_target_temperature (state : gmap string pyval) : M unit :=
  match state !! "um_max_temp" with
  | Some v =>
      if isinstance_int_float v then
        temp ← lift (py_float v);
        if fle MIN_TEMP temp && fle temp MAX_TEMP then
          assign (set_target_temp (VFloat temp));;
          assign (set_attr_target_temperature (VFloat temp))
        else mret tt
      else mret tt
  | None => mret tt
  end.

Definition update_status (state : gmap string pyval) : M unit :=
  match state !! "status" with
  | Some (VStr s) =>
      let status := lower s in
      if String.eqb status "comfort" then
        assign (set_attr_hvac_mode HVACMode.HEAT);;
        assign (set_attr_preset_mode (Some PRESET_COMFORT));;
        assign (set_attr_hvac_action HVACAction.HEATING)
      else if String.eqb status "eco" then
        assign (set_attr_hvac_mode HVACMode.HEAT);;
        assign (set_attr_preset_mode (Some PRESET_ECO));;
        assign (set_attr_hvac_action HVACAction.HEATING)
      else if String.eqb status "ice" then
        assign (set_attr_hvac_mode HVACMode.OFF);;
        assign (set_attr_preset_mode None);;
        assign (set_attr_hvac_action HVACAction.OFF)
      else mret tt
  | _ => mret tt
  end.

(** [keeps f m]: the method [m] leaves the attribute [f] of the entity as it
    found it, however it ends. *)
Definition keeps {A F : Type} (f : RointeHeater → F) (m : M A) : Prop :=
  ∀ w, f (self (exec m w)) = f (self w).

(** ** More of the entity *)

(** Attributes the constructor copies from the device record.  No method
    writes them, nor [_device_info], so they are read from the record. *)
Definition _device_power (h : RointeHeater) : pyval :=
  dict_get (_device_info h) "power" VNone.
Definition _device_version (h : RointeHeater) : pyval :=
  dict_get (_device_info h) "version" VNone.
Definition _device_type (h : RointeHeater) : pyval :=
  dict_get (_device_info h) "type" VNone.
Definition _device_serial (h : RointeHeater) : pyval :=
  dict_get (_device_info h) "serialNumber" VNone.
Definition _device_mac (h : RointeHeater) : pyval :=
  dict_get (_device_info h) "mac" VNone.
Definition _zone_name (h : RointeHeater) : pyval :=
  dict_get (_device_info h) "zone" VNone.

(** The property [extra_state_attributes].  The attribute
    [_last_update_time] is None from the constructor on and no method
    assigns it, so the entry "last_update" is never added. *)
Definition extra_state_attributes (h : RointeHeater) : gmap string pyval :=
  let attrs : gmap string pyval :=
    {[ "device_id" := device_id h;
       "device_category" := VStr (_device_category h);
       "online" := _online h ]} in
  let attrs :=
    if truthy (_device_power h)
    then <["power_watts" := _device_power h]> attrs else attrs in
  let attrs :=
    if truthy (_device_model h)
    then <["device_model" := _device_model h]> attrs else attrs in
  let attrs :=
    if truthy (_device_version h)
    then <["device_version" := _device_version h]> attrs else attrs in
  let attrs :=
    if truthy (_device_type h)
    then <["device_type" := _device_type h]> attrs else attrs in
  let attrs :=
    if truthy (_device_serial h)
    then <["serial_number" := _device_serial h]> attrs else attrs in
  let attrs :=
    if truthy (_device_mac h)
    then <["mac_address" := _device_mac h]> attrs else attrs in
  let attrs :=
    if truthy (_zone_name h)
    then <["zone" := _zone_name h]> attrs else attrs in
  let attrs :=
    if truthy (_last_seen h)
    then <["last_seen" := _last_seen h]> attrs else attrs in
  let attrs :=
    if truthy (_device_status h)
    then <["device_status" := _device_status h]> attrs else attrs in
  attrs.

(** [async_added_to_hass] and [async_update]. *)
Definition async_added_to_hass : M unit := schedule_update_ha_state.
Definition async_update : M unit := mret tt.

(** ** Vocabulary of the further properties *)

(** The number of sends in a history. *)
Fixpoint count_sends (events : list event) : nat :=
  match events with
  | [] => 0
  | EvSend _ _ :: rest => S (count_sends rest)
  | _ :: rest => count_sends rest
  end.

(** The three commands, as opposed to the update handler. *)
Definition is_command (o : op) : bool :=
  match o with
  | OpHandleUpdate _ => false
  | _ => true
  end.

(** The temperatures of the entity agree with their backing attributes and
    lie in the range an update accepts. *)
Definition temperatures_sound (h : RointeHeater) : Prop :=
  _current_temp h = _attr_current_temperature h
  ∧ _target_temp h = _attr_target_temperature h
  ∧ numeric_between 5 35 (VFloat (_attr_current_temperature h))
  ∧ numeric_between 5 35 (_attr_target_temperature h).

(** The two temperatures and their backing attributes. *)
Definition temperature_attrs (h : RointeHeater)
  : pyfloat * pyfloat * pyval * pyval :=
  (_current_temp h, _attr_current_temperature h,
   _target_temp h, _attr_target_temperature h).

(** The model a device record gives the constructor. *)
Definition record_model (device_info : option (gmap string pyval)) : pyval :=
  match device_info ≫= (λ d, d !! "model") with
  | Some v => v
  | None => VNone
  end.

Definition is_str (v : pyval) : Prop := ∃ s, v = VStr s.

(** [preserves P m]: the method [m] keeps the property [P] of the entity,
    however it ends. *)
Definition preserves {A : Type} (P : RointeHeater → Prop) (m : M A) : Prop :=
  ∀ w, P (self w) → P (self (exec m w)).

(** [silent m]: the method [m] calls neither the channel nor the host. *)
Definition silent {A : Type} (m : M A) : Prop :=
  ∀ w, trace (exec m w) = trace w.

(** What an update asks of a temperature: [Ok (Some t)] to store [t],
    [Ok None] to leave it, [Raise e] when the conversion raises. *)
Definition temperature_of_update (state : gmap string pyval) (key : string)
  : result (option pyfloat) :=
  match state !! key with
  | Some v =>
      if isinstance_int_float v then
        match py_float v with
        | Ok temp =>
            Ok (if fle MIN_TEMP temp && fle temp MAX_TEMP then Some temp else None)
        | Raise e => Raise e
        end
      else Ok None
  | None => Ok None
  end.

(** What an update asks of mode, preset and action. *)
Definition status_of_update (state : gmap string pyval)
  : option (HVACMode.t * option string * HVACAction.t) :=
  match state !! "status" with
  | Some (VStr s) =>
      if String.eqb (lower s) "comfort" then
        Some (HVACMode.HEAT, Some PRESET_COMFORT, HVACAction.HEATING)
      else if String.eqb (lower s) "eco" then
        Some (HVACMode.HEAT, Some PRESET_ECO, HVACAction.HEATING)
      else if String.eqb (lower s) "ice" then
        Some (HVACMode.OFF, None, HVACAction.OFF)
      else None
  | _ => None
  end.

(** The entity an update leaves, as a function of the entity it finds. *)
Definition apply_update (state : gmap string pyval) (h : RointeHeater)
  : RointeHeater :=
  let h1 := copy_through state h in
  match temperature_of_update state "temp" with
  | Raise _ => h1
  | Ok current =>
      let h2 :=
        match current with
        | Some t => set_attr_current_temperature t (set_current_temp t h1)
        | None => h1
        end in
      match temperature_of_update state "um_max_temp" with
      | Raise _ => h2
      | Ok target =>
          let h3 :=
            match target with
            | Some t =>
                set_attr_target_temperature (VFloat t)
                  (set_target_temp (VFloat t) h2)
            | None => h2
            end in
          let h4 :=
            match status_of_update state with
            | Some (m, p, a) =>
                set_attr_hvac_action a
                  (set_attr_preset_mode p (set_attr_hvac_mode m h3))
            | None => h3
            end in
          set_available true h4
      end
  end.

(** What identifies the entity and its device. *)
Definition identity_attrs (h : RointeHeater)
  : pyval * gmap string pyval * pyval * string * pyfloat * pyfloat :=
  (device_id h, _device_info h, _device_model h, _device_category h,
   _attr_min_temp h, _attr_max_temp h).

(** * Properties *)

(** ** Reasoning rules for methods *)

Arguments float_of_int : simpl never.

Ltac unfold_monad :=
  unfold exec, outcome, try_except, mbind, M_bind, mret, M_ret, raise, assign,
    attr, lift, ws_send, async_write_ha_state, schedule_update_ha_state, emit
    in *.

(** Split on the innermost scrutinee of a [match] or [if] of the goal. *)
Ltac case_step :=
  match goal with
  | |- context [match ?x with _ => _ end] =>
      lazymatch x with
      | context [match _ with _ => _ end] => fail
      | _ => destruct x eqn:?
      end
  end.

(** Run a method on a symbolic world, through all of its paths. *)
Ltac run := unfold_monad; simpl; repeat (case_step; simpl).

Section Rules.

Context {A B : Type}.

Lemma bind_ok (m : M A) (k : A → M B) w a :
  outcome m w = Ok a → (m ≫= k) w = k a (exec m w).
Proof.
  unfold outcome, exec, mbind, M_bind. destruct (m w) as [[a' | e] w'];
    simpl; congruence.
Qed.

Lemma bind_raise (m : M A) (k : A → M B) w e :
  outcome m w = Raise e → (m ≫= k) w = (Raise e, exec m w).
Proof.
  unfold outcome, exec, mbind, M_bind. destruct (m w) as [[a' | e'] w'];
    simpl; congruence.
Qed.

End Rules.

Section Keeps.

Context {F : Type} (f : RointeHeater → F).

Lemma keeps_ret {A} (a : A) : keeps f (mret a).
Proof. intros w. reflexivity. Qed.

Lemma keeps_raise {A} e : keeps f (raise (A := A) e).
Proof. intros w. reflexivity. Qed.

Lemma keeps_lift {A} (r : result A) : keeps f (lift r).
Proof. intros w. reflexivity. Qed.

Lemma keeps_attr {A} (g : RointeHeater → A) : keeps f (attr g).
Proof. intros w. reflexivity. Qed.

Lemma keeps_emit ev : keeps f (emit ev).
Proof. intros w. reflexivity. Qed.

Lemma keeps_ws_send dev updates : keeps f (ws_send dev updates).
Proof. intros w. unfold exec, ws_send. destruct (ws _ _ _ _); reflexivity. Qed.

Lemma keeps_assign g : (∀ h, f (g h) = f h) → keeps f (assign g).
Proof. intros Hg w. apply Hg. Qed.

Lemma keeps_bind {A B} (m : M A) (k : A → M B) :
  keeps f m → (∀ a, keeps f (k a)) → keeps f (m ≫= k).
Proof.
  intros Hm Hk w. specialize (Hm w). unfold exec, mbind, M_bind in *.
  destruct (m w) as [[a | e] w']; simpl in *; [| exact Hm].
  rewrite <- Hm. apply Hk.
Qed.

Lemma keeps_try_except {A} (body : M A) handler :
  keeps f body → (∀ e, keeps f (handler e)) → keeps f (try_except body handler).
Proof.
  intros Hm Hk w. specialize (Hm w). unfold exec, try_except in *.
  destruct (body w) as [[a | e] w']; simpl in *; [exact Hm |].
  rewrite <- Hm. apply Hk.
Qed.

(** Whatever follows [m] and keeps [f] can be dropped when reading [f]. *)
Lemma exec_bind_keeps {A B} (m : M A) (k : A → M B) w :
  (∀ a, keeps f (k a)) →
  f (self (exec (m ≫= k) w)) = f (self (exec m w)).
Proof.
  intros Hk. unfold exec, mbind, M_bind.
  destruct (m w) as [[a | e] w']; simpl; [apply Hk | reflexivity].
Qed.

Lemma exec_try_except_keeps {A} (body : M A) handler w :
  (∀ e, keeps f (handler e)) →
  f (self (exec (try_except body handler) w)) = f (self (exec body w)).
Proof.
  intros Hk. unfold exec, try_except.
  destruct (body w) as [[a | e] w']; simpl; [reflexivity | apply Hk].
Qed.

End Keeps.

Ltac keeps_step :=
  lazymatch goal with
  | |- keeps _ (mbind _ _) => apply keeps_bind; [| intros ?]
  | |- keeps _ (try_except _ _) => apply keeps_try_except; [| intros ?]
  | |- keeps _ (assign _) => apply keeps_assign; intros ?; reflexivity
  | |- keeps _ (mret _) => apply keeps_ret
  | |- keeps _ (raise _) => apply keeps_raise
  | |- keeps _ (lift _) => apply keeps_lift
  | |- keeps _ (attr _) => apply keeps_attr
  | |- keeps _ (emit _) => apply keeps_emit
  | |- keeps _ async_write_ha_state => apply keeps_emit
  | |- keeps _ schedule_update_ha_state => apply keeps_emit
  | |- keeps _ (ws_send _ _) => apply keeps_ws_send
  | |- keeps _ (match ?x with _ => _ end) => destruct x
  | |- keeps _ (let _ := _ in _) => cbv zeta
  end.

Ltac keeps_auto := repeat keeps_step.

(** The attributes no method writes. *)
Lemma handle_update_keeps_attr_available state :
  keeps _attr_available (_handle_update state).
Proof. unfold _handle_update. keeps_auto. Qed.

(** ** Conversion of integers to floats *)

Lemma round_to_double_small z :
  Z.abs z < 2 ^ 53 → round_to_double z = z.
Proof.
  intros Hz. unfold round_to_double.
  destruct (Z.ltb_spec (Z.abs z) (2 ^ 53)); [reflexivity | lia].
Qed.

(** Rounding keeps the sign and does not go below [2^53] in magnitude. *)
Lemma round_to_double_large z :
  2 ^ 53 ≤ Z.abs z →
  round_to_double z = Z.sgn z * Z.abs (round_to_double z)
  ∧ 2 ^ 53 ≤ Z.abs (round_to_double z).
Proof.
  intros Hz. unfold round_to_double.
  destruct (Z.ltb_spec (Z.abs z) (2 ^ 53)) as [Hlt | _]; [lia |].
  cbv zeta.
  set (a := Z.abs z) in *.
  assert (Ha : 0 < a) by lia.
  assert (Hlog : 53 ≤ Z.log2 a).
  { change 53 with (Z.log2 (2 ^ 53)). apply Z.log2_le_mono. exact Hz. }
  set (sh := Z.log2 a - 52).
  assert (Hsh : 1 ≤ sh) by (unfold sh; lia).
  assert (Hpow : 2 ≤ 2 ^ sh).
  { change 2 with (2 ^ 1) at 1. apply Z.pow_le_mono_r; lia. }
  assert (Hm : 2 ^ 52 ≤ a / 2 ^ sh).
  { apply Z.div_le_lower_bound; [lia |].
    rewrite <- Z.pow_add_r by lia.
    replace (sh + 52) with (Z.log2 a) by (unfold sh; lia).
    apply Z.log2_spec. exact Ha. }
  set (m := a / 2 ^ sh) in *.
  match goal with
  | |- context [if ?c then m + 1 else m] => set (m' := if c then m + 1 else m)
  end.
  assert (Hm' : 2 ^ 52 ≤ m').
  { unfold m'. match goal with |- context [if ?c then _ else _] => destruct c end; lia. }
  assert (Hprod : 2 ^ 53 ≤ m' * 2 ^ sh).
  { change (2 ^ 53) with (2 ^ 52 * 2). apply Z.mul_le_mono_nonneg; lia. }
  clearbody m'. revert Hprod. generalize (m' * 2 ^ sh). intros p Hp.
  subst a. destruct z as [| q | q]; simpl Z.sgn; lia.
Qed.

Lemma Qle_bool_inject_Z (a b : Z) :
  Qle_bool (inject_Z a) (inject_Z b) = true ↔ a ≤ b.
Proof.
  rewrite Qle_bool_iff. unfold Qle, inject_Z. simpl. lia.
Qed.

(** On an integer that converts, the range check on the double is the range
    check on the integer, and an integer in range converts exactly. *)
Lemma float_of_int_range z f (lo hi : Z) :
  Z.abs lo < 2 ^ 53 → Z.abs hi < 2 ^ 53 →
  float_of_int z = Ok f →
  (fle (FFin (inject_Z lo)) f && fle f (FFin (inject_Z hi)) = true ↔ lo ≤ z ≤ hi)
  ∧ (lo ≤ z ≤ hi → f = FFin (inject_Z z)).
Proof.
  intros Hlo Hhi. unfold float_of_int.
  destruct (Z.abs (round_to_double z) <? 2 ^ 1024); [| discriminate].
  intros [= <-]. simpl.
  rewrite andb_true_iff, !Qle_bool_inject_Z.
  destruct (Z_lt_le_dec (Z.abs z) (2 ^ 53)) as [Hs | Hl].
  - rewrite round_to_double_small by exact Hs. tauto.
  - destruct (round_to_double_large z Hl) as [Hsgn Habs].
    split; [| lia].
    destruct z; simpl in *; lia.
Qed.

(** An integer below [2^53] in magnitude converts. *)
Lemma float_of_int_small z :
  Z.abs z < 2 ^ 53 → float_of_int z = Ok (FFin (inject_Z z)).
Proof.
  intros Hz. unfold float_of_int. rewrite round_to_double_small by exact Hz.
  destruct (Z.ltb_spec (Z.abs z) (2 ^ 1024)); [reflexivity |].
  assert (2 ^ 53 < 2 ^ 1024) by (apply Z.pow_lt_mono_r; lia). lia.
Qed.

(** ** The stages of [_handle_update] *)

(** [_handle_update] is its stages in sequence, under the handler. *)
Lemma handle_update_stages state w :
  _handle_update state w =
  try_except
    (update_current_temperature state;;
     update_target_temperature state;;
     update_status state;;
     assign (set_available true);;
     async_write_ha_state)
    (λ e, mret tt)
    (mkWorld (copy_through state (self w)) (trace w)).
Proof. reflexivity. Qed.

Lemma handle_update_current_temperature state w :
  _attr_current_temperature (self (exec (_handle_update state) w)) =
  match state !! "temp" with
  | Some v =>
      if isinstance_int_float v then
        match py_float v with
        | Ok temp =>
            if fle MIN_TEMP temp && fle temp MAX_TEMP then temp
            else _attr_current_temperature (self w)
        | Raise _ => _attr_current_temperature (self w)
        end
      else _attr_current_temperature (self w)
  | None => _attr_current_temperature (self w)
  end.
Proof.
  unfold exec at 1. rewrite handle_update_stages.
  change (snd (?m ?x)) with (exec m x).
  rewrite exec_try_except_keeps by (intros; keeps_auto).
  rewrite exec_bind_keeps
    by (intros; unfold update_target_temperature, update_status; keeps_auto).
  unfold update_current_temperature.
  destruct (state !! "temp") as [v |]; [destruct v |]; run; reflexivity.
Qed.

(** ** Temperatures pushed by the device *)

Lemma fle_between (lo hi : Z) f :
  fle (FFin (inject_Z lo)) f && fle f (FFin (inject_Z hi)) = true
  ↔ numeric_between lo hi (VFloat f).
Proof.
  destruct f as [| [|] | q]; simpl; rewrite ?andb_false_r;
    try (split; [discriminate | tauto]).
  rewrite andb_true_iff, !Qle_bool_iff. tauto.
Qed.

(** The range check of the code on [float(v)], against the range of [v]. *)
Lemma range_check_numeric (lo hi : Z) v :
  Z.abs lo < 2 ^ 53 → Z.abs hi < 2 ^ 53 →
  isinstance_int_float v = true →
  match py_float v with
  | Ok temp =>
      if fle (FFin (inject_Z lo)) temp && fle temp (FFin (inject_Z hi))
      then numeric_between lo hi v ∧ as_number v = Some temp
      else ¬ numeric_between lo hi v
  | Raise _ => ¬ numeric_between lo hi v
  end.
Proof.
  intros Hlo Hhi. destruct v as [| b | z | f | s | d]; try discriminate; intros _.
  - cbn [py_float as_number].
    destruct (fle _ _ && fle _ _) eqn:E.
    + split; [| reflexivity].
      simpl in E. rewrite andb_true_iff, !Qle_bool_inject_Z in E. exact E.
    + intros Hb. simpl in E, Hb.
      apply (proj2 (not_true_iff_false _) E).
      rewrite andb_true_iff, !Qle_bool_inject_Z. exact Hb.
  - cbn [py_float as_number]. destruct (float_of_int z) as [f | e] eqn:E.
    + destruct (float_of_int_range z f lo hi Hlo Hhi E) as [Hiff Heq].
      destruct (fle _ _ && fle _ _).
      * assert (lo ≤ z ≤ hi) by (apply Hiff; reflexivity).
        split; [assumption |]. rewrite (Heq H). reflexivity.
      * intros Hb. apply Hiff in Hb. discriminate.
    + intros Hb. simpl in Hb.
      rewrite float_of_int_small in E by lia. discriminate.
  - cbn [py_float as_number]. destruct (fle _ _ && fle _ _) eqn:E.
    + split; [| reflexivity]. apply fle_between. exact E.
    + intros Hb. apply fle_between in Hb. congruence.
Qed.

(** C3. For every update mapping with a key "temp" of value [v]:
    when [v] is numeric and 5 ≤ v ≤ 35 the current temperature becomes [v],
    and otherwise it keeps its prior value. *)
Theorem handle_update_temp_iff_in_range state v w :
  state !! "temp" = Some v →
  let h' := self (exec (_handle_update state) w) in
  (numeric_between 5 35 v →
   as_number v = Some (_attr_current_temperature h'))
  ∧ (¬ numeric_between 5 35 v →
     _attr_current_temperature h' = _attr_current_temperature (self w)).
Proof.
  intros Hv. cbv zeta. rewrite handle_update_current_temperature, Hv.
  destruct (isinstance_int_float v) eqn:Hnum.
  - pose proof (range_check_numeric 5 35 v eq_refl eq_refl Hnum) as Hr.
    change (FFin (inject_Z 5)) with MIN_TEMP in Hr.
    change (FFin (inject_Z 35)) with MAX_TEMP in Hr.
    destruct (py_float v) as [temp | e].
    + destruct (fle MIN_TEMP temp && fle temp MAX_TEMP).
      * destruct Hr as [Hb Heq]. split; [intros _; exact Heq | tauto].
      * split; [tauto | reflexivity].
    + split; [tauto | reflexivity].
  - split; [| reflexivity].
    intros Hb. destruct v as [| b | z | [| n | q] | s | d];
      simpl in Hb, Hnum; solve [contradiction | discriminate].
Qed.

(** ** Status strings pushed by the device *)

Lemma try_except_bind_ok {A B} (m : M A) (k : A → M B) handler w a :
  outcome m w = Ok a →
  try_except (m ≫= k) handler w = try_except (k a) handler (exec m w).
Proof. intros H. unfold try_except. rewrite (bind_ok m k w a H). reflexivity. Qed.

Lemma try_except_bind_raise {A B} (m : M A) (k : A → M B) handler w e :
  outcome m w = Raise e →
  try_except (m ≫= k) handler w = handler e (exec m w).
Proof. intros H. unfold try_except. rewrite (bind_raise m k w e H). reflexivity. Qed.

Lemma float_of_int_raise z e :
  float_of_int z = Raise e →
  e = Exn OverflowError "int too large to convert to float".
Proof.
  unfold float_of_int. destruct (_ <? _); [discriminate | congruence].
Qed.

Ltac overflow_case :=
  try reflexivity;
  match goal with
  | H : float_of_int _ = Raise _ |- _ =>
      rewrite (float_of_int_raise _ _ H); reflexivity
  end.

Lemma update_current_temperature_outcome state w :
  outcome (update_current_temperature state) w =
  if converts state "temp" then Ok tt
  else Raise (Exn OverflowError "int too large to convert to float").
Proof.
  unfold update_current_temperature, converts.
  destruct (state !! "temp") as [v |]; [destruct v |]; run; overflow_case.
Qed.

Lemma update_target_temperature_outcome state w :
  outcome (update_target_temperature state) w =
  if converts state "um_max_temp" then Ok tt
  else Raise (Exn OverflowError "int too large to convert to float").
Proof.
  unfold update_target_temperature, converts.
  destruct (state !! "um_max_temp") as [v |]; [destruct v |]; run; overflow_case.
Qed.

Lemma update_current_temperature_keeps_mode state :
  keeps mode_fields (update_current_temperature state).
Proof. unfold update_current_temperature. keeps_auto. Qed.

Lemma update_target_temperature_keeps_mode state :
  keeps mode_fields (update_target_temperature state).
Proof. unfold update_target_temperature. keeps_auto. Qed.

Lemma update_status_mode_fields state w :
  mode_fields (self (exec (update_status state) w)) =
  match state !! "status" with
  | Some (VStr s) =>
      if String.eqb (lower s) "comfort" then
        (HVACMode.HEAT, Some PRESET_COMFORT, HVACAction.HEATING)
      else if String.eqb (lower s) "eco" then
        (HVACMode.HEAT, Some PRESET_ECO, HVACAction.HEATING)
      else if String.eqb (lower s) "ice" then
        (HVACMode.OFF, None, HVACAction.OFF)
      else mode_fields (self w)
  | _ => mode_fields (self w)
  end.
Proof.
  unfold update_status.
  destruct (state !! "status") as [v |]; [destruct v |]; run; reflexivity.
Qed.

(** Mode, preset and action after an update, read off the code path. *)
Lemma handle_update_mode_fields state w :
  mode_fields (self (exec (_handle_update state) w)) =
  if converts state "temp" && converts state "um_max_temp" then
    match state !! "status" with
    | Some (VStr s) =>
        if String.eqb (lower s) "comfort" then
          (HVACMode.HEAT, Some PRESET_COMFORT, HVACAction.HEATING)
        else if String.eqb (lower s) "eco" then
          (HVACMode.HEAT, Some PRESET_ECO, HVACAction.HEATING)
        else if String.eqb (lower s) "ice" then
          (HVACMode.OFF, None, HVACAction.OFF)
        else mode_fields (self w)
    | _ => mode_fields (self w)
    end
  else mode_fields (self w).
Proof.
  unfold exec at 1. rewrite handle_update_stages.
  set (w1 := mkWorld _ _).
  assert (H1 : mode_fields (self w1) = mode_fields (self w)) by reflexivity.
  pose proof (update_current_temperature_outcome state w1) as Hc.
  pose proof (update_current_temperature_keeps_mode state w1) as Hkc.
  destruct (converts state "temp"); simpl andb.
  2: { rewrite (try_except_bind_raise _ _ _ _ _ Hc). simpl. congruence. }
  rewrite (try_except_bind_ok _ _ _ _ _ Hc).
  set (w2 := exec _ w1) in *.
  pose proof (update_target_temperature_outcome state w2) as Ht.
  pose proof (update_target_temperature_keeps_mode state w2) as Hkt.
  destruct (converts state "um_max_temp").
  2: { rewrite (try_except_bind_raise _ _ _ _ _ Ht). simpl. congruence. }
  rewrite (try_except_bind_ok _ _ _ _ _ Ht).
  set (w3 := exec _ w2) in *.
  change (snd (?m ?x)) with (exec m x).
  rewrite exec_try_except_keeps by (intros; keeps_auto).
  rewrite exec_bind_keeps by (intros; keeps_auto).
  rewrite update_status_mode_fields.
  replace (mode_fields (self w3)) with (mode_fields (self w)) by congruence.
  reflexivity.
Qed.

(** C1, as amended.  For every update mapping whose "status" value is a
    string and whose "temp" and "um_max_temp" values convert to [float]
    without overflow, the status is mapped case-insensitively by the table:
    "comfort" gives (HEAT, COMFORT, HEATING), "eco" gives (HEAT, ECO,
    HEATING), "ice" gives (OFF, None, OFF), and every other string leaves
    mode, preset and action as they were. *)
Theorem handle_update_status_mapped state s w :
  state !! "status" = Some (VStr s) →
  converts state "temp" = true →
  converts state "um_max_temp" = true →
  status_mapped s (self w) (self (exec (_handle_update state) w)).
Proof.
  intros Hs Ht Hu. unfold status_mapped.
  rewrite handle_update_mode_fields, Hs, Ht, Hu. simpl andb. cbv iota.
  repeat split.
  - intros ->. reflexivity.
  - intros ->. reflexivity.
  - intros ->. reflexivity.
  - intros Hc He Hi.
    destruct (String.eqb_spec (lower s) "comfort"); [contradiction |].
    destruct (String.eqb_spec (lower s) "eco"); [contradiction |].
    destruct (String.eqb_spec (lower s) "ice"); [contradiction |].
    reflexivity.
Qed.

Lemma handle_update_status_mapped_witness :
  status_mapped "COMFORT" (new_heater quiet_channel)
    (self (exec (_handle_update
                   {[ "temp" := VInt 22; "status" := VStr "COMFORT" ]})
             (new_world quiet_channel))).
Proof.
  apply handle_update_status_mapped; reflexivity.
Defined.

(** C1 as stated fails: an update whose "temp" is an integer too large for
    a float raises inside the handler before the status is looked at, and
    the status "comfort" is dropped with it. *)
Lemma handle_update_status_dropped_on_overflow :
  ¬ (∀ state s w,
       state !! "status" = Some (VStr s) →
       status_mapped s (self w) (self (exec (_handle_update state) w))).
Proof.
  intros H.
  specialize (H {[ "temp" := VInt (10 ^ 400); "status" := VStr "comfort" ]}
                "comfort" (new_world quiet_channel) eq_refl).
  destruct H as [Hc _]. specialize (Hc eq_refl).
  vm_compute in Hc. discriminate Hc.
Qed.

(** ** Mode and preset along the operations *)

Lemma handle_update_mode_step state w :
  mode_step (mode_fields (self w))
    (mode_fields (self (exec (_handle_update state) w))).
Proof.
  rewrite handle_update_mode_fields. unfold mode_step.
  destruct (converts state "temp" && converts state "um_max_temp"); [| tauto].
  destruct (state !! "status") as [[| | | | s |] |]; try tauto.
  repeat match goal with |- context [if ?c then _ else _] => destruct c end;
    tauto.
Qed.

Lemma set_hvac_mode_mode_step hvac_mode w :
  mode_step (mode_fields (self w))
    (mode_fields (self (exec (async_set_hvac_mode hvac_mode) w))).
Proof.
  unfold mode_step, mode_fields, async_set_hvac_mode.
  destruct hvac_mode; run; tauto.
Qed.

Lemma set_preset_mode_mode_step preset_mode w :
  mode_step (mode_fields (self w))
    (mode_fields (self (exec (async_set_preset_mode preset_mode) w))).
Proof.
  unfold mode_step, mode_fields, async_set_preset_mode.
  cbn [existsb].
  destruct (String.eqb_spec preset_mode PRESET_COMFORT) as [-> | Hc];
    [| destruct (String.eqb_spec preset_mode PRESET_ECO) as [-> | He]];
    run; try tauto.
  do 4 right. exists preset_mode. auto.
Qed.

Lemma set_temperature_keeps_mode kwargs :
  keeps mode_fields (async_set_temperature kwargs).
Proof. unfold async_set_temperature. keeps_auto. Qed.

Lemma run_op_mode_step o w :
  mode_step (mode_fields (self w)) (mode_fields (self (exec (run_op o) w))).
Proof.
  destruct o; simpl run_op.
  - apply handle_update_mode_step.
  - apply set_hvac_mode_mode_step.
  - apply set_preset_mode_mode_step.
  - left. apply set_temperature_keeps_mode.
Qed.

Lemma mode_step_coherent h h' :
  mode_step (mode_fields h) (mode_fields h') →
  mode_preset_coherent h → mode_preset_coherent h'.
Proof.
  unfold mode_step, mode_preset_coherent, mode_fields.
  intros Hstep [Hheat Hoff].
  destruct Hstep as [H | [H | [H | [H | (p & Hp1 & Hp2 & H)]]]];
    injection H as Hm Hp Ha; rewrite Hm, Hp, Ha.
  - split; assumption.
  - split; [auto | discriminate].
  - split; [auto | discriminate].
  - split; [discriminate | auto].
  - split; [discriminate |]. intros _. split; [reflexivity |].
    right. right. exists p. auto.
Qed.

(** What the constructor leaves in the attributes that do not depend on
    the device record. *)
Lemma init_attributes DEVICE_MODELS str_lower ws device_id device_info h :
  __init__ DEVICE_MODELS str_lower ws device_id device_info = Ok h →
  mode_fields h = (HVACMode.OFF, Some PRESET_ECO, HVACAction.OFF)
  ∧ _attr_available h = true
  ∧ _available h = true
  ∧ _attr_min_temp h = FFin 7
  ∧ _attr_max_temp h = FFin 30
  ∧ _attr_current_temperature h = FFin 20
  ∧ _attr_target_temperature h = VFloat (FFin 21).
Proof.
  unfold __init__, mbind, result_bind.
  destruct (if truthy _ then _ else _) as [found | e]; [| discriminate].
  intros [= <-]. repeat split.
Qed.

(** C2, as amended.  In every state reachable from construction by updates
    and commands: whenever the mode is HEAT the preset is ECO or COMFORT;
    whenever the mode is OFF the action is OFF and the preset is None, or the
    ECO the constructor starts with, or a name other than ECO and COMFORT
    passed to set_preset_mode. *)
Theorem reachable_mode_preset_coherent DEVICE_MODELS str_lower w :
  reachable DEVICE_MODELS str_lower w → mode_preset_coherent (self w).
Proof.
  induction 1 as [ws id info h Hinit | w o Hreach IH].
  - apply init_attributes in Hinit as [Hm _].
    unfold mode_fields in Hm. injection Hm as Hmode Hpreset Haction.
    simpl. unfold mode_preset_coherent. rewrite Hmode, Hpreset, Haction.
    split; [discriminate | auto].
  - eapply mode_step_coherent; [apply run_op_mode_step | exact IH].
Qed.

Lemma new_heater_init str_lower ws :
  __init__ [] str_lower ws (VStr "heater-1") None = Ok (new_heater ws).
Proof. reflexivity. Qed.

Lemma reachable_mode_preset_coherent_witness :
  mode_preset_coherent
    (self (exec (run_op (OpSetPresetMode "away")) (new_world quiet_channel))).
Proof.
  apply (reachable_mode_preset_coherent [] lower).
  apply reach_step. apply (reach_init [] lower quiet_channel (VStr "heater-1") None).
  reflexivity.
Defined.

(** C2 as stated fails in the state the constructor builds: the mode is OFF
    and the preset is ECO, not None. *)
Lemma new_heater_off_with_preset :
  ¬ (∀ DEVICE_MODELS str_lower w,
       reachable DEVICE_MODELS str_lower w → mode_preset_consistent (self w)).
Proof.
  intros H.
  assert (Hreach : reachable [] lower (new_world quiet_channel)).
  { apply (reach_init [] lower quiet_channel (VStr "heater-1") None). reflexivity. }
  destruct (H [] lower _ Hreach) as [_ Hoff].
  destruct (Hoff eq_refl) as [Hpreset _]. discriminate Hpreset.
Qed.

(** ** Commands *)

(** Run a command up to its send on the channel. *)
Ltac command_run :=
  unfold_monad; cbn -[comfort_wire eco_wire insert singletonM];
  fold comfort_wire eco_wire.

(** C4. When the send succeeds, set_hvac_mode(HEAT) sends exactly
    {status: "comfort", power: 2} and leaves mode HEAT, preset COMFORT,
    action HEATING; set_hvac_mode(OFF) sends exactly {status: "eco",
    power: 1} and leaves mode OFF, preset None, action OFF. *)
Theorem set_hvac_mode_sends_and_updates w :
  (send_completes w comfort_wire →
   let w' := exec (async_set_hvac_mode HVACMode.HEAT) w in
   outcome (async_set_hvac_mode HVACMode.HEAT) w = Ok tt
   ∧ trace w' = (trace w ++ [EvSend (device_id (self w)) comfort_wire; EvWriteState])%list
   ∧ mode_fields (self w')
     = (HVACMode.HEAT, Some PRESET_COMFORT, HVACAction.HEATING))
  ∧ (send_completes w eco_wire →
     let w' := exec (async_set_hvac_mode HVACMode.OFF) w in
     outcome (async_set_hvac_mode HVACMode.OFF) w = Ok tt
     ∧ trace w' = (trace w ++ [EvSend (device_id (self w)) eco_wire; EvWriteState])%list
     ∧ mode_fields (self w') = (HVACMode.OFF, None, HVACAction.OFF)).
Proof.
  unfold send_completes, async_set_hvac_mode, mode_fields.
  split; intros H; command_run; rewrite H; cbn; rewrite <- app_assoc; auto.
Qed.

Lemma set_hvac_mode_sends_and_updates_witness :
  mode_fields (self (exec (async_set_hvac_mode HVACMode.HEAT)
                       (new_world quiet_channel)))
  = (HVACMode.HEAT, Some PRESET_COMFORT, HVACAction.HEATING)
  ∧ mode_fields (self (exec (async_set_hvac_mode HVACMode.OFF)
                         (new_world quiet_channel)))
    = (HVACMode.OFF, None, HVACAction.OFF).
Proof.
  destruct (set_hvac_mode_sends_and_updates (new_world quiet_channel))
    as [Hheat Hoff].
  split.
  - apply Hheat. reflexivity.
  - apply Hoff. reflexivity.
Defined.

(** ** Attributes that are never written *)

Lemma run_op_keeps_static o : keeps static_attrs (run_op o).
Proof.
  destruct o; simpl run_op.
  - unfold _handle_update. keeps_auto.
  - unfold async_set_hvac_mode. keeps_auto.
  - unfold async_set_preset_mode. keeps_auto.
  - unfold async_set_temperature. keeps_auto.
Qed.

Lemma reachable_static DEVICE_MODELS str_lower w :
  reachable DEVICE_MODELS str_lower w →
  _attr_available (self w) = true
  ∧ _attr_min_temp (self w) = FFin 7
  ∧ _attr_max_temp (self w) = FFin 30.
Proof.
  induction 1 as [ws id info h Hinit | w o Hreach IH].
  - apply init_attributes in Hinit. simpl. tauto.
  - pose proof (run_op_keeps_static o w) as Hk.
    unfold static_attrs in Hk. injection Hk as -> -> -> _. exact IH.
Qed.

(** ** The temperature command *)

Lemma chained_le_between (lo hi : Z) v :
  isinstance_int_float v = true →
  ∃ b, chained_le (FFin (inject_Z lo)) v (FFin (inject_Z hi)) = Ok b
       ∧ (b = true ↔ numeric_between lo hi v).
Proof.
  destruct v as [| b | z | f | s | d]; try discriminate; intros _;
    unfold chained_le; cbn [as_number]; eexists; (split; [reflexivity |]).
  - simpl. rewrite andb_true_iff, !Qle_bool_inject_Z. tauto.
  - simpl. rewrite andb_true_iff, !Qle_bool_inject_Z. tauto.
  - apply fle_between.
Qed.

(** C5. On an entity reachable from construction, for every numeric
    temperature [v]: outside [7,30] set_temperature returns silently, with
    no send and no change of state; within [7,30] it sends
    {um_max_temp: v} and the target temperature becomes [v]. *)
Theorem set_temperature_range DEVICE_MODELS str_lower w kwargs v :
  reachable DEVICE_MODELS str_lower w →
  kwargs !! ATTR_TEMPERATURE = Some v →
  isinstance_int_float v = true →
  let w' := exec (async_set_temperature kwargs) w in
  (¬ numeric_between 7 30 v →
   async_set_temperature kwargs w = (Ok tt, w))
  ∧ (numeric_between 7 30 v →
     _attr_target_temperature (self w') = v
     ∧ _target_temp (self w') = v
     ∧ trace w' =
       (trace w ++
        EvSend (device_id (self w)) {[ "um_max_temp" := v ]}
        :: match outcome (async_set_temperature kwargs) w with
           | Ok _ => [EvScheduleUpdate]
           | Raise _ => []
           end)%list).
Proof.
  intros Hreach Hk Hnum.
  destruct (reachable_static _ _ _ Hreach) as (_ & Hmin & Hmax).
  destruct (chained_le_between 7 30 v Hnum) as (b & Hcmp & Hb).
  assert (Hbody :
    async_set_temperature kwargs w =
    if negb b then (Ok tt, w)
    else
      let h' := set_attr_target_temperature v (set_target_temp v (self w)) in
      let sent := (trace w ++ [EvSend (device_id (self w))
                                 {[ "um_max_temp" := v ]}])%list in
      match ws (self w) (trace w) (device_id (self w))
              {[ "um_max_temp" := v ]} with
      | None => (Ok tt, mkWorld h' (sent ++ [EvScheduleUpdate]))
      | Some e => (Raise e, mkWorld h' sent)
      end).
  { unfold async_set_temperature, dict_get. rewrite Hk. cbn [default].
    change (FFin 7) with (FFin (inject_Z 7)) in Hmin.
    change (FFin 30) with (FFin (inject_Z 30)) in Hmax.
    unfold_monad. unfold min_temp, max_temp.
    destruct v; try discriminate Hnum;
      cbn -[insert singletonM chained_le]; rewrite Hmin, Hmax, Hcmp;
      destruct b; cbn -[insert singletonM];
      try (destruct w; reflexivity);
      destruct (ws _ _ _ _); reflexivity. }
  cbv zeta. unfold exec, outcome. rewrite Hbody. split.
  - intros Hout. destruct b; [tauto | reflexivity].
  - intros Hin. apply Hb in Hin. subst b. cbn [negb].
    destruct (ws _ _ _ _); cbn; rewrite <- ?app_assoc; auto.
Qed.

Lemma set_temperature_range_witness :
  _attr_target_temperature
    (self (exec (async_set_temperature {[ "temperature" := VFloat (FFin 25) ]})
             (new_world quiet_channel)))
  = VFloat (FFin 25).
Proof.
  assert (Hreach : reachable [] lower (new_world quiet_channel)).
  { apply (reach_init [] lower quiet_channel (VStr "heater-1") None). reflexivity. }
  assert (Hk : ({[ "temperature" := VFloat (FFin 25) ]} : gmap string pyval)
                 !! ATTR_TEMPERATURE = Some (VFloat (FFin 25)))
    by reflexivity.
  destruct (set_temperature_range [] lower (new_world quiet_channel) _ _
              Hreach Hk eq_refl) as [_ Hin].
  apply Hin. simpl. unfold Qle. simpl. lia.
Defined.

(** C6, the temperature command: on a channel whose send raises,
    set_temperature(25.0) on a new entity surfaces the transport error with
    the target temperature already moved from 21.0 to 25.0. *)
Theorem set_temperature_updates_before_send :
  let w := new_world broken_channel in
  let kwargs : gmap string pyval := {[ "temperature" := VFloat (FFin 25) ]} in
  outcome (async_set_temperature kwargs) w
  = Raise (Exn TransportError "connection lost")
  ∧ _attr_target_temperature (self w) = VFloat (FFin 21)
  ∧ _attr_target_temperature (self (exec (async_set_temperature kwargs) w))
    = VFloat (FFin 25).
Proof. vm_compute. auto. Qed.

(** ** Failures of the send *)

(** C7. When the send raises [e]: set_hvac_mode catches it, sets the
    availability flag false, publishes the state again and raises
    RointeDeviceError; set_preset_mode raises RointeDeviceError and leaves
    the entity, its availability included, as it was; set_temperature lets
    [e] itself through. *)
Theorem command_failures w e :
  (∀ hvac_mode,
     In hvac_mode HVAC_MODES →
     send_raises w (mode_wire hvac_mode) e →
     async_set_hvac_mode hvac_mode w =
     (Raise (Exn RointeDeviceError ("Failed to set HVAC mode: " +:+ exn_msg e)),
      mkWorld (set_available false (self w))
        (trace w ++ [EvSend (device_id (self w)) (mode_wire hvac_mode);
                     EvWriteState])%list))
  ∧ (∀ preset_mode,
       send_raises w (preset_wire preset_mode) e →
       async_set_preset_mode preset_mode w =
       (Raise (Exn RointeDeviceError ("Failed to set preset: " +:+ exn_msg e)),
        mkWorld (self w)
          (trace w ++ [EvSend (device_id (self w)) (preset_wire preset_mode)])%list))
  ∧ (∀ kwargs v,
       kwargs !! ATTR_TEMPERATURE = Some v →
       chained_le (min_temp (self w)) v (max_temp (self w)) = Ok true →
       send_raises w {[ "um_max_temp" := v ]} e →
       outcome (async_set_temperature kwargs) w = Raise e).
Proof.
  unfold send_raises. repeat split.
  - intros hvac_mode Hin H.
    destruct Hin as [<- | [<- | []]]; unfold async_set_hvac_mode;
      cbn [mode_wire] in *; command_run; rewrite H; cbn;
      rewrite <- app_assoc; reflexivity.
  - intros preset_mode H. unfold async_set_preset_mode, preset_wire in *.
    destruct (String.eqb preset_mode PRESET_COMFORT);
      [| destruct (String.eqb preset_mode PRESET_ECO)];
      command_run; rewrite H; reflexivity.
  - intros kwargs v Hk Hcmp H.
    unfold async_set_temperature, dict_get. rewrite Hk. cbn [default].
    assert (Hnone : v ≠ VNone).
    { intros ->. discriminate Hcmp. }
    unfold outcome. unfold_monad.
    destruct v; try contradiction;
      cbn -[insert singletonM chained_le]; rewrite Hcmp;
      cbn -[insert singletonM]; rewrite H; reflexivity.
Qed.

Lemma command_failures_witness :
  outcome (async_set_hvac_mode HVACMode.HEAT) (new_world broken_channel)
  = Raise (Exn RointeDeviceError "Failed to set HVAC mode: connection lost")
  ∧ _available (self (exec (async_set_hvac_mode HVACMode.HEAT)
                        (new_world broken_channel))) = false
  ∧ exec (async_set_preset_mode "eco") (new_world broken_channel)
    = mkWorld (new_heater broken_channel)
        [EvSend (VStr "heater-1") eco_wire]
  ∧ outcome (async_set_temperature {[ "temperature" := VInt 25 ]})
      (new_world broken_channel)
    = Raise (Exn TransportError "connection lost").
Proof.
  destruct (command_failures (new_world broken_channel)
              (Exn TransportError "connection lost")) as (Hmode & Hpreset & Htemp).
  unfold outcome, exec.
  rewrite (Hmode HVACMode.HEAT (or_intror (or_introl eq_refl)) eq_refl).
  rewrite (Hpreset "eco" eq_refl).
  do 3 (split; [reflexivity |]).
  apply (Htemp {[ "temperature" := VInt 25 ]} (VInt 25)); reflexivity.
Defined.

(** C8. The attribute _attr_available is True in every reachable state, and
    no operation changes it: the failure path of set_hvac_mode and the
    update handler write _available only. *)
Theorem attr_available_never_written DEVICE_MODELS str_lower w :
  reachable DEVICE_MODELS str_lower w →
  _attr_available (self w) = true
  ∧ ∀ o, _attr_available (self (exec (run_op o) w)) = _attr_available (self w).
Proof.
  intros Hreach. split.
  - apply (reachable_static _ _ _ Hreach).
  - intros o. pose proof (run_op_keeps_static o w) as Hk.
    unfold static_attrs in Hk. congruence.
Qed.

Lemma attr_available_never_written_witness :
  let w := exec (run_op (OpSetHvacMode HVACMode.HEAT)) (new_world broken_channel) in
  _attr_available (self w) = true ∧ _available (self w) = false.
Proof.
  split; [| reflexivity].
  apply (attr_available_never_written [] lower
           (exec (run_op (OpSetHvacMode HVACMode.HEAT))
              (new_world broken_channel))).
  apply reach_step.
  apply (reach_init [] lower broken_channel (VStr "heater-1") None). reflexivity.
Defined.

(** ** Device categorization *)

Lemma category_loop_first_match str_lower items m :
  category_loop str_lower items (VStr m) = Ok (first_match items str_lower m).
Proof.
  unfold first_match. induction items as [| [k c] rest IH]; [reflexivity |].
  simpl. destruct (str_in (str_lower k) (str_lower m)); [reflexivity | exact IH].
Qed.











(** ** Platform setup *)

Lemma create_entity_valid DEVICE_MODELS str_lower ws dev :
  valid_record DEVICE_MODELS str_lower ws dev = true →
  ∃ h, create_entity DEVICE_MODELS str_lower ws dev = Ok (Some h)
       ∧ built_from DEVICE_MODELS str_lower ws dev h.
Proof.
  unfold valid_record, create_entity, built_from.
  destruct dev as [| | | | | d]; try discriminate.
  destruct (truthy (dict_get d "id" VNone)); [| discriminate]. simpl.
  destruct (__init__ _ _ _ _) as [h | e] eqn:Hinit; [| discriminate].
  intros _. exists h. split; [reflexivity |]. exists d. split; [reflexivity | exact Hinit].
Qed.

Lemma create_entity_malformed DEVICE_MODELS str_lower ws dev :
  valid_record DEVICE_MODELS str_lower ws dev = false →
  create_entity DEVICE_MODELS str_lower ws dev = Ok None
  ∨ ∃ e, create_entity DEVICE_MODELS str_lower ws dev = Raise e.
Proof.
  unfold valid_record, create_entity.
  destruct dev as [| | | | | d]; try (right; eexists; reflexivity).
  destruct (truthy (dict_get d "id" VNone)); [| left; reflexivity]. simpl.
  destruct (__init__ _ _ _ _) as [h | e]; [discriminate |].
  intros _. right. exists e. reflexivity.
Qed.

(** The loop appends one entity per valid record, in order, and nothing for
    the other records. *)
Lemma setup_loop_entities DEVICE_MODELS str_lower ws devices entities :
  ∃ new,
    setup_loop DEVICE_MODELS str_lower ws devices entities = (entities ++ new)%list
    ∧ Forall2 (built_from DEVICE_MODELS str_lower ws)
        (List.filter (valid_record DEVICE_MODELS str_lower ws) devices) new.
Proof.
  revert entities. induction devices as [| dev rest IH]; intros entities.
  - exists []. split; [symmetry; apply app_nil_r | constructor].
  - cbn [setup_loop List.filter].
    destruct (valid_record DEVICE_MODELS str_lower ws dev) eqn:Hvalid.
    + destruct (create_entity_valid _ _ _ _ Hvalid) as (h & -> & Hbuilt).
      destruct (IH (entities ++ [h])%list) as (new & -> & Hnew).
      exists (h :: new). split.
      * rewrite <- app_assoc. reflexivity.
      * constructor; assumption.
    + destruct (create_entity_malformed _ _ _ _ Hvalid) as [-> | [e ->]];
        apply IH.
Qed.

(** C10. Setup never aborts on a device record: it returns normally, and
    the entities it hands to the host are one per valid record, in the order
    of the list, and none for a record without id or one the constructor
    rejects. *)
Theorem setup_skips_malformed DEVICE_MODELS str_lower ws devices :
  ∃ added,
    async_setup_entry DEVICE_MODELS str_lower ws devices = Ok added
    ∧ let entities := default [] added in
      length entities
      = length (List.filter (valid_record DEVICE_MODELS str_lower ws) devices)
      ∧ Forall2 (built_from DEVICE_MODELS str_lower ws)
          (List.filter (valid_record DEVICE_MODELS str_lower ws) devices) entities.
Proof.
  destruct (setup_loop_entities DEVICE_MODELS str_lower ws devices [])
    as (new & Hloop & Hnew).
  simpl in Hloop.
  assert (Hlen : length new
                 = length (List.filter (valid_record DEVICE_MODELS str_lower ws) devices)).
  { symmetry. apply (Forall2_length _ _ _ Hnew). }
  unfold async_setup_entry. destruct devices as [| dev rest].
  - exists None. simpl. split; [reflexivity |]. split; [reflexivity | constructor].
  - rewrite Hloop. destruct new as [| h new'].
    + exists None. simpl default. split; [reflexivity |].
      split; [exact Hlen | exact Hnew].
    + exists (Some (h :: new')). simpl default. split; [reflexivity |].
      split; [exact Hlen | exact Hnew].
Qed.

(** ** Worked examples *)

Lemma handle_update_temp_iff_in_range_witness :
  as_number (VInt 22)
  = Some (_attr_current_temperature
            (self (exec (_handle_update {[ "temp" := VInt 22 ]})
                     (new_world quiet_channel))))
  ∧ _attr_current_temperature
      (self (exec (_handle_update {[ "temp" := VFloat (FFin 40) ]})
               (new_world quiet_channel)))
    = FFin 20.
Proof.
  split.
  - apply (handle_update_temp_iff_in_range {[ "temp" := VInt 22 ]} (VInt 22)
             (new_world quiet_channel)); [reflexivity |].
    simpl. lia.
  - apply (handle_update_temp_iff_in_range {[ "temp" := VFloat (FFin 40) ]}
             (VFloat (FFin 40)) (new_world quiet_channel)); [reflexivity |].
    simpl. unfold Qle. simpl. lia.
Defined.

(** Four records, of which one has no id, one is not a mapping and one has
    a model that is no string: one entity is created. *)
Example setup_one_of_four :
  let table := [("radiator", "radiator")] in
  let devices :=
    [ VDict {[ "name" := VStr "Hall" ]};
      VDict {[ "id" := VStr "a1"; "model" := VStr "Radiator Plus X2" ]};
      VStr "not a record";
      VDict {[ "id" := VStr "a2"; "model" := VInt 7 ]} ] in
  match async_setup_entry table lower quiet_channel devices with
  | Ok added => Some (device_id <$> default [] added)
  | Raise _ => None
  end = Some [VStr "a1"]
  ∧ List.filter (valid_record table lower quiet_channel) devices
    = [VDict {[ "id" := VStr "a1"; "model" := VStr "Radiator Plus X2" ]}].
Proof. vm_compute. split; reflexivity. Qed.

(** * Further properties *)

(** ** More rules *)

Lemma preserves_bind {A B} P (m : M A) (k : A → M B) :
  preserves P m → (∀ a, preserves P (k a)) → preserves P (m ≫= k).
Proof.
  intros Hm Hk w HP. specialize (Hm w HP). unfold exec, mbind, M_bind in *.
  destruct (m w) as [[a | e] w']; simpl in *; [| exact Hm].
  apply Hk. exact Hm.
Qed.

Lemma preserves_try_except {A} P (body : M A) handler :
  preserves P body → (∀ e, preserves P (handler e)) →
  preserves P (try_except body handler).
Proof.
  intros Hm Hk w HP. specialize (Hm w HP). unfold exec, try_except in *.
  destruct (body w) as [[a | e] w']; simpl in *; [exact Hm |].
  apply Hk. exact Hm.
Qed.

Lemma keeps_preserves {A F} (f : RointeHeater → F) (P : F → Prop) (m : M A) :
  keeps f m → preserves (λ h, P (f h)) m.
Proof. intros Hk w HP. rewrite Hk. exact HP. Qed.

Lemma silent_bind {A B} (m : M A) (k : A → M B) :
  silent m → (∀ a, silent (k a)) → silent (m ≫= k).
Proof.
  intros Hm Hk w. specialize (Hm w). unfold exec, mbind, M_bind in *.
  destruct (m w) as [[a | e] w']; simpl in *; [| exact Hm].
  rewrite <- Hm. apply Hk.
Qed.

Lemma silent_assign g : silent (assign g).
Proof. intros w. reflexivity. Qed.

Lemma silent_ret {A} (a : A) : silent (mret a).
Proof. intros w. reflexivity. Qed.

Lemma silent_lift {A} (r : result A) : silent (lift r).
Proof. intros w. reflexivity. Qed.

Ltac silent_step :=
  lazymatch goal with
  | |- silent (mbind _ _) => apply silent_bind; [| intros ?]
  | |- silent (assign _) => apply silent_assign
  | |- silent (mret _) => apply silent_ret
  | |- silent (lift _) => apply silent_lift
  | |- silent (match ?x with _ => _ end) => destruct x
  | |- silent (let _ := _ in _) => cbv zeta
  end.

Ltac silent_auto := repeat silent_step.

Lemma update_current_temperature_silent state :
  silent (update_current_temperature state).
Proof. unfold update_current_temperature. silent_auto. Qed.

Lemma update_target_temperature_silent state :
  silent (update_target_temperature state).
Proof. unfold update_target_temperature. silent_auto. Qed.

Lemma update_status_silent state : silent (update_status state).
Proof. unfold update_status. silent_auto. Qed.

Lemma update_status_outcome state w :
  outcome (update_status state) w = Ok tt.
Proof.
  unfold update_status.
  destruct (state !! "status") as [v |]; [destruct v |]; run; reflexivity.
Qed.

(** ** The update handler as a whole *)

(** X1. _handle_update never raises.  When the temperatures of the update
    convert, it marks the entity available and publishes the state once;
    when a conversion overflows it publishes nothing and leaves the
    availability flag as it was.  It never sends on the channel. *)
Theorem handle_update_completes_or_drops state w :
  let w' := exec (_handle_update state) w in
  outcome (_handle_update state) w = Ok tt
  ∧ (if converts state "temp" && converts state "um_max_temp"
     then _available (self w') = true
          ∧ trace w' = (trace w ++ [EvWriteState])%list
     else _available (self w') = _available (self w)
          ∧ trace w' = trace w).
Proof.
  cbv zeta. unfold outcome, exec. rewrite handle_update_stages.
  set (w1 := mkWorld _ _).
  assert (H1 : _available (self w1) = _available (self w)) by reflexivity.
  assert (T1 : trace w1 = trace w) by reflexivity.
  pose proof (update_current_temperature_outcome state w1) as Hc.
  assert (Hkc : keeps _available (update_current_temperature state))
    by (unfold update_current_temperature; keeps_auto).
  specialize (Hkc w1).
  pose proof (update_current_temperature_silent state w1) as Sc.
  destruct (converts state "temp"); simpl andb.
  2: { rewrite (try_except_bind_raise _ _ _ _ _ Hc). simpl.
       split; [reflexivity |]. split; congruence. }
  rewrite (try_except_bind_ok _ _ _ _ _ Hc).
  set (w2 := exec _ w1) in *.
  pose proof (update_target_temperature_outcome state w2) as Ht.
  assert (Hkt : keeps _available (update_target_temperature state))
    by (unfold update_target_temperature; keeps_auto).
  specialize (Hkt w2).
  pose proof (update_target_temperature_silent state w2) as St.
  destruct (converts state "um_max_temp").
  2: { rewrite (try_except_bind_raise _ _ _ _ _ Ht). simpl.
       split; [reflexivity |]. split; congruence. }
  rewrite (try_except_bind_ok _ _ _ _ _ Ht).
  set (w3 := exec _ w2) in *.
  rewrite (try_except_bind_ok _ _ _ _ _ (update_status_outcome state w3)).
  pose proof (update_status_silent state w3) as Ss.
  set (w4 := exec _ w3) in *.
  unfold_monad. simpl. split; [reflexivity |]. split; [reflexivity |].
  congruence.
Qed.

(** X2. The keys "deviceStatus", "online" and "lastSeen" of an update are
    copied into the entity when present and the prior values are kept when
    absent, also when the rest of the update is dropped. *)
Theorem handle_update_copies_through state w :
  let h' := self (exec (_handle_update state) w) in
  _device_status h' = dict_get state "deviceStatus" (_device_status (self w))
  ∧ _online h' = dict_get state "online" (_online (self w))
  ∧ _last_seen h' = dict_get state "lastSeen" (_last_seen (self w)).
Proof.
  cbv zeta. unfold exec. rewrite handle_update_stages.
  change (snd (?m ?x)) with (exec m x).
  set (body := mbind _ _).
  assert (Hk : keeps (λ h, (_device_status h, _online h, _last_seen h)) body).
  { unfold body, update_current_temperature, update_target_temperature,
      update_status. keeps_auto. }
  pose proof (exec_try_except_keeps
                (λ h, (_device_status h, _online h, _last_seen h))
                body (λ e, mret tt)
                (mkWorld (copy_through state (self w)) (trace w))
                ltac:(intros; cbv beta; keeps_auto)) as H.
  rewrite Hk in H. simpl in H. injection H as -> -> ->. auto.
Qed.

(** The target temperature after an update, read off the code path. *)
Lemma handle_update_target_temperature state w :
  _attr_target_temperature (self (exec (_handle_update state) w)) =
  if converts state "temp" then
    match state !! "um_max_temp" with
    | Some v =>
        if isinstance_int_float v then
          match py_float v with
          | Ok temp =>
              if fle MIN_TEMP temp && fle temp MAX_TEMP then VFloat temp
              else _attr_target_temperature (self w)
          | Raise _ => _attr_target_temperature (self w)
          end
        else _attr_target_temperature (self w)
    | None => _attr_target_temperature (self w)
    end
  else _attr_target_temperature (self w).
Proof.
  unfold exec at 1. rewrite handle_update_stages.
  set (w1 := mkWorld _ _).
  assert (H1 : _attr_target_temperature (self w1)
               = _attr_target_temperature (self w)) by reflexivity.
  pose proof (update_current_temperature_outcome state w1) as Hc.
  assert (Hkc : keeps _attr_target_temperature (update_current_temperature state))
    by (unfold update_current_temperature; keeps_auto).
  specialize (Hkc w1).
  destruct (converts state "temp").
  2: { rewrite (try_except_bind_raise _ _ _ _ _ Hc). simpl. congruence. }
  rewrite (try_except_bind_ok _ _ _ _ _ Hc).
  set (w2 := exec _ w1) in *.
  change (snd (?m ?x)) with (exec m x).
  rewrite exec_try_except_keeps by (intros; keeps_auto).
  rewrite exec_bind_keeps by (intros; unfold update_status; keeps_auto).
  rewrite <- H1, <- Hkc. unfold update_target_temperature.
  destruct (state !! "um_max_temp") as [v |]; [destruct v |]; run; reflexivity.
Qed.

(** X3. For an update with a key "um_max_temp" of value [v] whose "temp"
    value converts: when [v] is numeric and 5 ≤ v ≤ 35 the target
    temperature becomes the float of value [v], and otherwise it keeps its
    prior value.  When the "temp" value overflows, the target temperature is
    not touched at all. *)
Theorem handle_update_target_iff_in_range state v w :
  state !! "um_max_temp" = Some v →
  let h' := self (exec (_handle_update state) w) in
  (converts state "temp" = true → numeric_between 5 35 v →
   ∃ temp, _attr_target_temperature h' = VFloat temp
           ∧ as_number v = Some temp)
  ∧ (converts state "temp" = false ∨ ¬ numeric_between 5 35 v →
     _attr_target_temperature h' = _attr_target_temperature (self w)).
Proof.
  intros Hv. cbv zeta. rewrite handle_update_target_temperature, Hv.
  destruct (converts state "temp"); [| split; [discriminate | reflexivity]].
  destruct (isinstance_int_float v) eqn:Hnum.
  - pose proof (range_check_numeric 5 35 v eq_refl eq_refl Hnum) as Hr.
    change (FFin (inject_Z 5)) with MIN_TEMP in Hr.
    change (FFin (inject_Z 35)) with MAX_TEMP in Hr.
    destruct (py_float v) as [temp | e].
    + destruct (fle MIN_TEMP temp && fle temp MAX_TEMP).
      * destruct Hr as [Hb Heq]. split.
        -- intros _ _. exists temp. auto.
        -- intros [Hf | Hn]; [discriminate | contradiction].
      * split; [intros _ Hb; contradiction | reflexivity].
    + split; [intros _ Hb; contradiction | reflexivity].
  - split; [| reflexivity].
    intros _ Hb. destruct v as [| b | z | [| n | q] | s | d];
      simpl in Hb, Hnum; solve [contradiction | discriminate].
Qed.

Lemma handle_update_target_iff_in_range_witness :
  _attr_target_temperature
    (self (exec (_handle_update {[ "temp" := VInt (10 ^ 400);
                                   "um_max_temp" := VInt 24 ]})
             (new_world quiet_channel)))
  = VFloat (FFin 21)
  ∧ ∃ temp,
      _attr_target_temperature
        (self (exec (_handle_update {[ "um_max_temp" := VInt 24 ]})
                 (new_world quiet_channel)))
      = VFloat temp
      ∧ as_number (VInt 24) = Some temp.
Proof.
  split.
  - apply (handle_update_target_iff_in_range
             {[ "temp" := VInt (10 ^ 400); "um_max_temp" := VInt 24 ]}
             (VInt 24) (new_world quiet_channel)); [reflexivity |].
    left. vm_compute. reflexivity.
  - apply (handle_update_target_iff_in_range {[ "um_max_temp" := VInt 24 ]}
             (VInt 24) (new_world quiet_channel)); [reflexivity .. |].
    simpl. lia.
Defined.

(** ** Temperatures along the operations *)

Arguments fle : simpl never.

Lemma numeric_between_weaken (lo hi lo' hi' : Z) v :
  lo' ≤ lo → hi ≤ hi' → numeric_between lo hi v → numeric_between lo' hi' v.
Proof.
  intros Hlo Hhi. destruct v as [| b | z | [| n | q] | s | d]; simpl; try tauto;
    try lia.
  intros [H1 H2]. split.
  - apply Qle_trans with (inject_Z lo); [| exact H1].
    rewrite <- Zle_Qle. exact Hlo.
  - apply Qle_trans with (inject_Z hi); [exact H2 |].
    rewrite <- Zle_Qle. exact Hhi.
Qed.

Lemma chained_le_true_between (lo hi : Z) v :
  chained_le (FFin (inject_Z lo)) v (FFin (inject_Z hi)) = Ok true →
  numeric_between lo hi v.
Proof.
  intros H.
  assert (Hnum : isinstance_int_float v = true).
  { destruct v; try reflexivity; discriminate H. }
  destruct (chained_le_between lo hi v Hnum) as (b & Hb & Hiff).
  apply Hiff. congruence.
Qed.

Lemma update_current_temperature_sound state :
  preserves temperatures_sound (update_current_temperature state).
Proof.
  intros w (Hc & Ht & Hbc & Hbt). unfold update_current_temperature, exec.
  destruct (state !! "temp") as [v |]; [| repeat split; assumption].
  destruct (isinstance_int_float v); [| repeat split; assumption].
  unfold_monad. destruct (py_float v) as [temp | e];
    [| repeat split; assumption].
  destruct (fle MIN_TEMP temp && fle temp MAX_TEMP) eqn:E;
    [| repeat split; assumption].
  apply (fle_between 5 35) in E. repeat split; assumption.
Qed.

Lemma update_target_temperature_sound state :
  preserves temperatures_sound (update_target_temperature state).
Proof.
  intros w (Hc & Ht & Hbc & Hbt). unfold update_target_temperature, exec.
  destruct (state !! "um_max_temp") as [v |]; [| repeat split; assumption].
  destruct (isinstance_int_float v); [| repeat split; assumption].
  unfold_monad. destruct (py_float v) as [temp | e];
    [| repeat split; assumption].
  destruct (fle MIN_TEMP temp && fle temp MAX_TEMP) eqn:E;
    [| repeat split; assumption].
  apply (fle_between 5 35) in E. repeat split; assumption.
Qed.

Lemma temperatures_sound_attrs h h' :
  temperature_attrs h' = temperature_attrs h →
  temperatures_sound h → temperatures_sound h'.
Proof.
  unfold temperature_attrs, temperatures_sound.
  intros [= -> -> -> ->]. tauto.
Qed.

Lemma keeps_temperatures_sound {A} (m : M A) :
  keeps temperature_attrs m → preserves temperatures_sound m.
Proof.
  intros Hk w Hs. eapply temperatures_sound_attrs; [apply Hk | exact Hs].
Qed.

Lemma handle_update_sound state :
  preserves temperatures_sound (_handle_update state).
Proof.
  intros w Hs. unfold exec. rewrite handle_update_stages.
  apply (preserves_try_except temperatures_sound).
  - apply preserves_bind; [apply update_current_temperature_sound | intros _].
    apply preserves_bind; [apply update_target_temperature_sound | intros _].
    apply keeps_temperatures_sound. unfold update_status. keeps_auto.
  - intros e. apply keeps_temperatures_sound. keeps_auto.
  - exact Hs.
Qed.

Lemma set_temperature_sound kwargs w :
  _attr_min_temp (self w) = FFin 7 →
  _attr_max_temp (self w) = FFin 30 →
  temperatures_sound (self w) →
  temperatures_sound (self (exec (async_set_temperature kwargs) w)).
Proof.
  intros Hmin Hmax Hs. unfold async_set_temperature, exec.
  destruct (dict_get kwargs ATTR_TEMPERATURE VNone) as [| b | z | f | s | d] eqn:Hv;
    [exact Hs | ..].
  all: unfold_monad; unfold min_temp, max_temp;
    cbn -[insert singletonM chained_le]; rewrite Hmin, Hmax;
    match goal with
    | |- context [chained_le _ ?v _] =>
        destruct (chained_le (FFin 7) v (FFin 30)) as [[|] | e] eqn:E
    end; cbn -[insert singletonM]; try exact Hs.
  all: apply (chained_le_true_between 7 30) in E;
    apply (numeric_between_weaken 7 30 5 35) in E; [| lia | lia];
    destruct Hs as (Hc & Ht & Hbc & Hbt);
    destruct (ws _ _ _ _); repeat split; simpl;
    solve [assumption | exact E | simpl in E; lia].
Qed.

Lemma init_temperatures DEVICE_MODELS str_lower ws device_id device_info h :
  __init__ DEVICE_MODELS str_lower ws device_id device_info = Ok h →
  temperature_attrs h
  = (FFin 20, FFin 20, VFloat (FFin 21), VFloat (FFin 21)).
Proof.
  unfold __init__, mbind, result_bind.
  destruct (if truthy _ then _ else _) as [found | e]; [| discriminate].
  intros [= <-]. reflexivity.
Qed.

(** X4. In every state reachable from construction the backing attributes
    _current_temp and _target_temp equal the published current and target
    temperatures, the current temperature is a finite float within [5,35]
    and the target temperature is a number within [5,35]. *)
Theorem reachable_temperatures_sound DEVICE_MODELS str_lower w :
  reachable DEVICE_MODELS str_lower w → temperatures_sound (self w).
Proof.
  induction 1 as [ws id info h Hinit | w o Hreach IH].
  - apply init_temperatures in Hinit. simpl.
    injection Hinit as Hc Hac Ht Hat.
    unfold temperatures_sound. rewrite Hc, Hac, Ht, Hat. simpl.
    unfold Qle. simpl. repeat split; lia.
  - destruct (reachable_static _ _ _ Hreach) as (_ & Hmin & Hmax).
    destruct o; simpl run_op.
    + apply handle_update_sound. exact IH.
    + apply keeps_temperatures_sound; [| exact IH].
      unfold async_set_hvac_mode. keeps_auto.
    + apply keeps_temperatures_sound; [| exact IH].
      unfold async_set_preset_mode. keeps_auto.
    + apply set_temperature_sound; assumption.
Qed.

Lemma reachable_temperatures_sound_witness :
  temperatures_sound
    (self (exec (run_op (OpSetTemperature {[ "temperature" := VInt 29 ]}))
             (new_world broken_channel))).
Proof.
  apply (reachable_temperatures_sound [] lower).
  apply reach_step.
  apply (reach_init [] lower broken_channel (VStr "heater-1") None). reflexivity.
Defined.

(** ** Modes and commands *)

(** X5. In every reachable state the mode is one of the supported modes
    OFF and HEAT, and the property hvac_action, computed from the mode,
    equals the action attribute the methods assign. *)
Theorem reachable_action_agrees DEVICE_MODELS str_lower w :
  reachable DEVICE_MODELS str_lower w →
  In (_attr_hvac_mode (self w)) HVAC_MODES
  ∧ hvac_action (self w) = _attr_hvac_action (self w).
Proof.
  intros Hreach.
  assert (H : mode_fields (self w) = (HVACMode.OFF, _attr_preset_mode (self w), HVACAction.OFF)
              ∨ mode_fields (self w) = (HVACMode.HEAT, _attr_preset_mode (self w), HVACAction.HEATING)).
  { induction Hreach as [ws id info h Hinit | w o Hreach IH].
    - apply init_attributes in Hinit as [Hm _]. simpl.
      unfold mode_fields in *. injection Hm as -> -> ->. auto.
    - pose proof (run_op_mode_step o w) as Hstep.
      unfold mode_step, mode_fields in *.
      destruct Hstep as [H | [H | [H | [H | (p & _ & _ & H)]]]];
        injection H as Hm Hp Ha; rewrite Hm, Ha.
      + destruct IH as [IH | IH]; injection IH as -> ->; auto.
      + auto.
      + auto.
      + auto.
      + auto. }
  unfold mode_fields, hvac_action in *.
  destruct H as [H | H]; injection H as -> ->; simpl; auto.
Qed.

Lemma reachable_action_agrees_witness :
  hvac_action
    (self (exec (run_op (OpHandleUpdate {[ "status" := VStr "Eco" ]}))
             (new_world quiet_channel)))
  = HVACAction.HEATING.
Proof.
  pose proof (reachable_action_agrees [] lower
                (exec (run_op (OpHandleUpdate {[ "status" := VStr "Eco" ]}))
                   (new_world quiet_channel))) as H.
  apply H. apply reach_step.
  apply (reach_init [] lower quiet_channel (VStr "heater-1") None). reflexivity.
Defined.

(** X6. set_hvac_mode with a mode other than OFF and HEAT returns normally
    without a send and without touching the entity. *)
Theorem set_hvac_mode_unsupported hvac_mode w :
  ¬ In hvac_mode HVAC_MODES →
  async_set_hvac_mode hvac_mode w = (Ok tt, w).
Proof.
  intros Hnot. unfold async_set_hvac_mode.
  destruct hvac_mode; simpl in Hnot; try tauto; reflexivity.
Qed.

Lemma set_hvac_mode_unsupported_witness :
  async_set_hvac_mode HVACMode.COOL (new_world broken_channel)
  = (Ok tt, new_world broken_channel).
Proof.
  apply set_hvac_mode_unsupported. simpl. intros [H | [H | []]]; discriminate H.
Defined.

(** X7. When the send completes, set_preset_mode with any name [p] sends the
    wire form of [p], which is the empty mapping for a name other than
    COMFORT and ECO, publishes the state once and stores [p] as the preset;
    the mode becomes HEAT with action HEATING for COMFORT and ECO, and OFF
    with action OFF for every other name. *)
Theorem set_preset_mode_completes preset_mode w :
  send_completes w (preset_wire preset_mode) →
  let w' := exec (async_set_preset_mode preset_mode) w in
  outcome (async_set_preset_mode preset_mode) w = Ok tt
  ∧ trace w' = (trace w ++ [EvSend (device_id (self w)) (preset_wire preset_mode);
                            EvWriteState])%list
  ∧ mode_fields (self w')
    = if String.eqb preset_mode PRESET_COMFORT || String.eqb preset_mode PRESET_ECO
      then (HVACMode.HEAT, Some preset_mode, HVACAction.HEATING)
      else (HVACMode.OFF, Some preset_mode, HVACAction.OFF).
Proof.
  unfold send_completes, async_set_preset_mode, preset_wire, mode_fields.
  cbn [existsb]. intros H. cbv zeta. unfold outcome, exec.
  destruct (String.eqb preset_mode PRESET_COMFORT);
    [| destruct (String.eqb preset_mode PRESET_ECO)];
    command_run; rewrite H; cbn; rewrite <- app_assoc; auto.
Qed.

Lemma set_preset_mode_completes_witness :
  mode_fields (self (exec (async_set_preset_mode "away") (new_world quiet_channel)))
  = (HVACMode.OFF, Some "away", HVACAction.OFF)
  ∧ trace (exec (async_set_preset_mode "away") (new_world quiet_channel))
    = [EvSend (VStr "heater-1") ∅; EvWriteState].
Proof.
  destruct (set_preset_mode_completes "away" (new_world quiet_channel) eq_refl)
    as (_ & Htrace & Hmode).
  split; [exact Hmode | exact Htrace].
Defined.

(** X8. set_temperature without a temperature, or with None, returns
    without effect; with a value that is not a number the range check raises
    TypeError, again with no send and no change of the entity. *)
Theorem set_temperature_without_number kwargs w :
  (dict_get kwargs ATTR_TEMPERATURE VNone = VNone →
   async_set_temperature kwargs w = (Ok tt, w))
  ∧ (∀ v, kwargs !! ATTR_TEMPERATURE = Some v →
          v ≠ VNone → isinstance_int_float v = false →
          ∃ msg, async_set_temperature kwargs w = (Raise (Exn TypeError msg), w)).
Proof.
  unfold async_set_temperature. split.
  - intros ->. reflexivity.
  - intros v Hv Hnone Hnum. unfold dict_get. rewrite Hv. cbn [default from_option id].
    destruct v; try discriminate Hnum; try contradiction;
      eexists; unfold_monad; cbn; destruct w; reflexivity.
Qed.

Lemma set_temperature_without_number_witness :
  async_set_temperature ∅ (new_world broken_channel)
  = (Ok tt, new_world broken_channel)
  ∧ ∃ msg,
      async_set_temperature {[ "temperature" := VStr "21" ]}
        (new_world broken_channel)
      = (Raise (Exn TypeError msg), new_world broken_channel).
Proof.
  split.
  - apply (set_temperature_without_number ∅ (new_world broken_channel)).
    reflexivity.
  - destruct (set_temperature_without_number {[ "temperature" := VStr "21" ]}
                (new_world broken_channel)) as [_ H].
    apply (H (VStr "21")); [reflexivity | discriminate | reflexivity].
Defined.

(** X9. No command sets the availability flag _available to True: after
    set_hvac_mode, set_preset_mode or set_temperature the flag has its prior
    value or is False.  Only an update that completes sets it. *)
Theorem commands_never_restore_available o w :
  is_command o = true →
  _available (self (exec (run_op o) w)) = _available (self w)
  ∨ _available (self (exec (run_op o) w)) = false.
Proof.
  destruct o as [state | hvac_mode | preset_mode | kwargs]; simpl;
    [discriminate | intros _ ..].
  - unfold async_set_hvac_mode. destruct hvac_mode; run; auto.
  - left. revert w. change (keeps _available (async_set_preset_mode preset_mode)).
    unfold async_set_preset_mode. keeps_auto.
  - left. revert w. change (keeps _available (async_set_temperature kwargs)).
    unfold async_set_temperature. keeps_auto.
Qed.

Lemma commands_never_restore_available_witness :
  let w1 := exec (async_set_hvac_mode HVACMode.HEAT) (new_world broken_channel) in
  _available (self (exec (run_op (OpSetPresetMode "eco")) w1)) = false.
Proof.
  cbv zeta.
  destruct (commands_never_restore_available (OpSetPresetMode "eco")
              (exec (async_set_hvac_mode HVACMode.HEAT) (new_world broken_channel))
              eq_refl) as [H | H].
  - rewrite H. reflexivity.
  - exact H.
Defined.

(** ** Commands echoed by the device *)

Lemma handle_update_wire_mode_fields w :
  mode_fields (self (exec (_handle_update comfort_wire) w))
  = (HVACMode.HEAT, Some PRESET_COMFORT, HVACAction.HEATING)
  ∧ mode_fields (self (exec (_handle_update eco_wire) w))
    = (HVACMode.HEAT, Some PRESET_ECO, HVACAction.HEATING).
Proof. rewrite !handle_update_mode_fields. split; reflexivity. Qed.

(** X10. The payload set_hvac_mode sends, pushed back by the device as an
    update, confirms HEAT but undoes OFF: after set_hvac_mode(HEAT) the echo
    {status: "comfort", power: 2} leaves mode, preset and action as the
    command set them, while after set_hvac_mode(OFF), which leaves
    (OFF, None, OFF), the echo {status: "eco", power: 1} switches the entity
    to (HEAT, ECO, HEATING). *)
Theorem set_hvac_mode_echo w :
  (send_completes w comfort_wire →
   let w1 := exec (async_set_hvac_mode HVACMode.HEAT) w in
   mode_fields (self (exec (_handle_update comfort_wire) w1))
   = mode_fields (self w1))
  ∧ (send_completes w eco_wire →
     let w1 := exec (async_set_hvac_mode HVACMode.OFF) w in
     mode_fields (self w1) = (HVACMode.OFF, None, HVACAction.OFF)
     ∧ mode_fields (self (exec (_handle_update eco_wire) w1))
       = (HVACMode.HEAT, Some PRESET_ECO, HVACAction.HEATING)).
Proof.
  split; intros H; cbv zeta.
  - rewrite (proj1 (handle_update_wire_mode_fields _)).
    unfold send_completes, async_set_hvac_mode, mode_fields, exec in *.
    command_run. rewrite H. reflexivity.
  - rewrite (proj2 (handle_update_wire_mode_fields _)).
    split; [| reflexivity].
    unfold send_completes, async_set_hvac_mode, mode_fields, exec in *.
    command_run. rewrite H. reflexivity.
Qed.

Lemma set_hvac_mode_echo_witness :
  let w1 := exec (async_set_hvac_mode HVACMode.OFF) (new_world quiet_channel) in
  mode_fields (self w1) = (HVACMode.OFF, None, HVACAction.OFF)
  ∧ mode_fields (self (exec (_handle_update eco_wire) w1))
    = (HVACMode.HEAT, Some PRESET_ECO, HVACAction.HEATING).
Proof.
  destruct (set_hvac_mode_echo (new_world quiet_channel)) as [_ H].
  apply H. reflexivity.
Defined.

(** ** The constructor *)

Lemma init_model DEVICE_MODELS str_lower chan device_id device_info :
  __init__ DEVICE_MODELS str_lower chan device_id device_info =
  (if truthy (record_model device_info)
   then category_loop str_lower DEVICE_MODELS (record_model device_info)
   else Ok None)
  ≫= λ found,
       Ok (mkRointeHeater chan device_id
             (match device_info with
              | Some d => if truthy (VDict d) then d else ∅
              | None => ∅
              end)
             true (FFin 7) (FFin 30) HVACMode.OFF (FFin 20)
             (VFloat (FFin 21)) (Some PRESET_ECO) HVACAction.OFF (FFin 20)
             (VFloat (FFin 21)) true (record_model device_info)
             (match found with
              | Some c => if negb (String.eqb c "") then c else "radiator"
              | None => "radiator"
              end)
             (dict_get (match device_info with
                        | Some d => if truthy (VDict d) then d else ∅
                        | None => ∅
                        end) "deviceStatus" (VDict ∅))
             (dict_get (match device_info with
                        | Some d => if truthy (VDict d) then d else ∅
                        | None => ∅
                        end) "online" (VBool true))
             (dict_get (match device_info with
                        | Some d => if truthy (VDict d) then d else ∅
                        | None => ∅
                        end) "lastSeen" VNone)).
Proof.
  unfold __init__, record_model, dict_get.
  set (info := match device_info with Some d => _ | None => _ end).
  assert (Hinfo : info !! "model" = device_info ≫= (λ d, d !! "model")).
  { unfold info. destruct device_info as [d |]; [| reflexivity].
    simpl. destruct (bool_decide (d = ∅)) eqn:E; [| reflexivity].
    apply bool_decide_eq_true in E. subst d. reflexivity. }
  rewrite <- Hinfo. destruct (info !! "model"); reflexivity.
Qed.

Lemma category_loop_not_str str_lower items v :
  items ≠ [] → ¬ is_str v → ∃ e, category_loop str_lower items v = Raise e.
Proof.
  intros Hitems Hv. destruct items as [| [k c] rest]; [congruence |].
  destruct v; try (eexists; reflexivity).
  exfalso. apply Hv. eexists. reflexivity.
Qed.

(** X11. The constructor raises exactly when the table of models is not
    empty and the record gives a model that is truthy and not a string; in
    every other case it builds an entity. *)
Theorem init_raises_iff DEVICE_MODELS str_lower chan device_id device_info :
  (∃ e, __init__ DEVICE_MODELS str_lower chan device_id device_info = Raise e)
  ↔ DEVICE_MODELS ≠ []
    ∧ truthy (record_model device_info) = true
    ∧ ¬ is_str (record_model device_info).
Proof.
  rewrite init_model. set (model := record_model device_info).
  split.
  - intros [e He]. destruct (truthy model) eqn:Ht; [| discriminate He].
    destruct DEVICE_MODELS as [| kc rest]; [discriminate He |].
    split; [discriminate |]. split; [reflexivity |].
    intros [m Hm]. rewrite Hm in He.
    rewrite category_loop_first_match in He. discriminate He.
  - intros (Htable & Ht & Hstr). rewrite Ht.
    destruct (category_loop_not_str str_lower _ _ Htable Hstr) as [e He].
    exists e. rewrite He. reflexivity.
Qed.

(** X12. Whatever the table holds, an entity the constructor builds has a
    category that is not the empty string. *)
Theorem init_category_not_empty DEVICE_MODELS str_lower chan device_id device_info h :
  __init__ DEVICE_MODELS str_lower chan device_id device_info = Ok h →
  _device_category h ≠ "".
Proof.
  rewrite init_model.
  destruct (if truthy _ then _ else _) as [found | e]; [| discriminate].
  intros [= <-]. simpl.
  destruct found as [c |]; [| discriminate].
  destruct (String.eqb_spec c ""); simpl; [discriminate | assumption].
Qed.

Lemma init_category_not_empty_witness :
  ∃ h, __init__ [("radiator", "")] lower quiet_channel (VStr "heater-1")
         (Some {[ "model" := VStr "Radiator Plus X2" ]}) = Ok h
       ∧ _device_category h ≠ "".
Proof.
  eexists. split; [reflexivity |].
  apply (init_category_not_empty [("radiator", "")] lower quiet_channel
           (VStr "heater-1") (Some {[ "model" := VStr "Radiator Plus X2" ]})).
  reflexivity.
Defined.

(** ** More on platform setup *)

Lemma built_from_fields DEVICE_MODELS str_lower chan dev h :
  built_from DEVICE_MODELS str_lower chan dev h →
  ∃ d, dev = VDict d
       ∧ ws h = chan
       ∧ device_id h = dict_get d "id" VNone
       ∧ _device_info h = d
       ∧ mode_fields h = (HVACMode.OFF, Some PRESET_ECO, HVACAction.OFF).
Proof.
  intros (d & -> & Hinit). exists d. split; [reflexivity |].
  rewrite init_model in Hinit.
  destruct (if truthy (record_model _) then _ else _) as [found | e];
    [| discriminate].
  revert Hinit. intros [= <-]. simpl. repeat split.
  destruct (bool_decide (d = ∅)) eqn:E; [| reflexivity].
  apply bool_decide_eq_true in E. subst d. reflexivity.
Qed.

Lemma valid_record_id DEVICE_MODELS str_lower chan d :
  valid_record DEVICE_MODELS str_lower chan (VDict d) = true →
  truthy (dict_get d "id" VNone) = true.
Proof.
  unfold valid_record. intros H. apply andb_true_iff in H. tauto.
Qed.

(** X14. Setup hands entities to the host exactly when some record of the
    list is valid, and never hands over an empty list: with no device, or
    with malformed records only, the host callback is not called. *)
Theorem setup_adds_iff_valid DEVICE_MODELS str_lower chan devices :
  (async_setup_entry DEVICE_MODELS str_lower chan devices = Ok None
   ↔ List.filter (valid_record DEVICE_MODELS str_lower chan) devices = [])
  ∧ (∀ entities,
       async_setup_entry DEVICE_MODELS str_lower chan devices = Ok (Some entities) →
       entities ≠ []).
Proof.
  destruct (setup_loop_entities DEVICE_MODELS str_lower chan devices [])
    as (new & Hloop & Hnew).
  simpl in Hloop. unfold async_setup_entry.
  destruct devices as [| dev rest].
  - simpl. split; [tauto | discriminate].
  - rewrite Hloop. destruct new as [| h new'].
    + apply Forall2_nil_inv_r in Hnew. rewrite Hnew.
      split; [tauto | discriminate].
    + apply Forall2_cons_inv_r in Hnew as (dev' & l' & _ & _ & Hf).
      rewrite Hf. split.
      * split; discriminate.
      * intros entities [= <-]. discriminate.
Qed.

Lemma Forall2_In_r {A B} (R : A → B → Prop) l k y :
  Forall2 R l k → In y k → ∃ x, In x l ∧ R x y.
Proof.
  induction 1 as [| x y' l k HR _ IH]; intros Hin; [destruct Hin |].
  destruct Hin as [-> | Hin].
  - exists x. split; [left; reflexivity | exact HR].
  - destruct (IH Hin) as (x' & Hx' & HR'). exists x'. split; [right |]; assumption.
Qed.

(** X15. Every entity setup creates comes from a record of the list: it
    carries the id of that record, which is truthy, the channel of the
    entry and the record itself as device information, and it starts in
    mode OFF with preset ECO and action OFF. *)
Theorem setup_entities_from_records DEVICE_MODELS str_lower chan devices entities h :
  async_setup_entry DEVICE_MODELS str_lower chan devices = Ok (Some entities) →
  In h entities →
  ∃ d, In (VDict d) devices
       ∧ device_id h = dict_get d "id" VNone
       ∧ truthy (device_id h) = true
       ∧ ws h = chan
       ∧ _device_info h = d
       ∧ mode_fields h = (HVACMode.OFF, Some PRESET_ECO, HVACAction.OFF).
Proof.
  intros Hsetup Hin.
  destruct (setup_loop_entities DEVICE_MODELS str_lower chan devices [])
    as (new & Hloop & Hnew).
  simpl in Hloop. unfold async_setup_entry in Hsetup.
  assert (Hent : entities = new).
  { destruct devices as [| dev rest]; [discriminate |].
    rewrite Hloop in Hsetup. destruct new; [discriminate | congruence]. }
  subst entities. clear Hsetup Hloop.
  destruct (Forall2_In_r _ _ _ _ Hnew Hin) as (dev & Hdev & Hbuilt).
  apply filter_In in Hdev as [Hdev Hvalid].
  destruct (built_from_fields _ _ _ _ _ Hbuilt)
    as (d & -> & Hws & Hid & Hinfo & Hmode).
  exists d. rewrite Hid. repeat split; try assumption.
  apply (valid_record_id _ _ _ _ Hvalid).
Qed.

Lemma setup_entities_from_records_witness :
  ∃ entities h d,
    async_setup_entry [] lower quiet_channel
      [VDict {[ "id" := VStr "a1" ]}; VDict {[ "name" := VStr "Hall" ]}]
    = Ok (Some entities)
    ∧ In h entities
    ∧ In (VDict d) [VDict {[ "id" := VStr "a1" ]}; VDict {[ "name" := VStr "Hall" ]}]
    ∧ device_id h = dict_get d "id" VNone.
Proof.
  eexists. eexists.
  assert (Hsetup :
    async_setup_entry [] lower quiet_channel
      [VDict {[ "id" := VStr "a1" ]}; VDict {[ "name" := VStr "Hall" ]}]
    = Ok (Some [mkRointeHeater quiet_channel (VStr "a1") {[ "id" := VStr "a1" ]}
                  true (FFin 7) (FFin 30) HVACMode.OFF (FFin 20)
                  (VFloat (FFin 21)) (Some PRESET_ECO) HVACAction.OFF (FFin 20)
                  (VFloat (FFin 21)) true VNone "radiator" (VDict ∅)
                  (VBool true) VNone])) by (vm_compute; reflexivity).
  destruct (setup_entities_from_records _ _ _ _ _ _ Hsetup (or_introl eq_refl))
    as (d & Hd & Hid & _).
  exists d. split; [exact Hsetup |]. split; [left; reflexivity |].
  split; [exact Hd | exact Hid].
Defined.

(** ** The attributes shown to the user *)

Lemma cond_insert_lookup_ne (c : bool) (k0 k : string) (v0 : pyval)
    (m : gmap string pyval) :
  k0 ≠ k → (if c then <[k0:=v0]> m else m) !! k = m !! k.
Proof. intros Hne. destruct c; [apply lookup_insert_ne; exact Hne | reflexivity]. Qed.

Lemma cond_insert_lookup_inv (c : bool) (k0 k : string) (v0 v : pyval)
    (m : gmap string pyval) :
  (if c then <[k0:=v0]> m else m) !! k = Some v →
  (c = true ∧ v = v0) ∨ m !! k = Some v.
Proof.
  destruct c; [| auto]. rewrite lookup_insert_Some.
  intros [[_ <-] | [_ H]]; auto.
Qed.

Lemma extra_state_attributes_fixed h :
  extra_state_attributes h !! "device_id" = Some (device_id h)
  ∧ extra_state_attributes h !! "device_category"
    = Some (VStr (_device_category h))
  ∧ extra_state_attributes h !! "online" = Some (_online h).
Proof.
  unfold extra_state_attributes. cbv zeta.
  rewrite !cond_insert_lookup_ne by discriminate.
  repeat split.
Qed.

(** X16. The extra state attributes always hold the device id, the device
    category and the online flag of the entity, and every other entry they
    hold has a truthy value: an attribute that is None, empty or zero is
    left out. *)
Theorem extra_state_attributes_entries h :
  extra_state_attributes h !! "device_id" = Some (device_id h)
  ∧ extra_state_attributes h !! "device_category"
    = Some (VStr (_device_category h))
  ∧ extra_state_attributes h !! "online" = Some (_online h)
  ∧ ∀ k v, extra_state_attributes h !! k = Some v →
           k = "device_id" ∨ k = "device_category" ∨ k = "online"
           ∨ truthy v = true.
Proof.
  destruct (extra_state_attributes_fixed h) as (Hid & Hcat & Hon).
  repeat (split; [assumption |]).
  intros k v. unfold extra_state_attributes. cbv zeta. intros H.
  repeat (apply cond_insert_lookup_inv in H as [[Hc ->] | H];
          [do 3 right; exact Hc |]).
  rewrite !lookup_insert_Some, lookup_singleton_Some in H.
  destruct H as [[<- _] | [_ [[<- _] | [_ [<- _]]]]]; auto.
Qed.

Lemma handle_update_online state w :
  _online (self (exec (_handle_update state) w))
  = dict_get state "online" (_online (self w)).
Proof.
  unfold exec. rewrite handle_update_stages.
  change (snd (?m ?x)) with (exec m x).
  rewrite exec_try_except_keeps by (intros; cbv beta; keeps_auto).
  set (body := mbind _ _).
  assert (Hk : keeps _online body).
  { unfold body, update_current_temperature, update_target_temperature,
      update_status. keeps_auto. }
  rewrite Hk. reflexivity.
Qed.

(** X17. After an update the attribute "online" shown to the user is the
    value of the key "online" of the update, or the prior flag when the
    update has no such key; this holds also when the update is otherwise
    dropped. *)
Theorem extra_state_attributes_online_follows state w :
  extra_state_attributes (self (exec (_handle_update state) w)) !! "online"
  = Some (dict_get state "online" (_online (self w))).
Proof.
  destruct (extra_state_attributes_fixed (self (exec (_handle_update state) w)))
    as (_ & _ & ->).
  rewrite handle_update_online. reflexivity.
Qed.

(** ** Sends *)

Ltac grows :=
  first
    [ exists []; split; [symmetry; apply app_nil_r | simpl; lia]
    | eexists; split; [rewrite <- ?app_assoc; reflexivity | simpl; lia] ].

(** X18. A command calls the channel at most once: the history after
    set_hvac_mode, set_preset_mode or set_temperature is the prior history
    followed by new events of which at most one is a send. *)
Theorem commands_send_at_most_once o w :
  is_command o = true →
  ∃ new, trace (exec (run_op o) w) = (trace w ++ new)%list
         ∧ (count_sends new ≤ 1)%nat.
Proof.
  destruct o as [state | hvac_mode | preset_mode | kwargs]; simpl;
    [discriminate | intros _ ..].
  - unfold async_set_hvac_mode. destruct hvac_mode; run; grows.
  - unfold async_set_preset_mode. run; grows.
  - unfold async_set_temperature, chained_le.
    destruct (dict_get kwargs ATTR_TEMPERATURE VNone); run; grows.
Qed.

Lemma commands_send_at_most_once_witness :
  ∃ new,
    trace (exec (run_op (OpSetHvacMode HVACMode.HEAT)) (new_world broken_channel))
    = (trace (new_world broken_channel) ++ new)%list
    ∧ (count_sends new ≤ 1)%nat.
Proof.
  apply commands_send_at_most_once. reflexivity.
Defined.

(** ** The update handler as a function of the entity *)

Lemma update_current_temperature_run state w :
  update_current_temperature state w =
  match temperature_of_update state "temp" with
  | Ok (Some t) =>
      (Ok tt, mkWorld (set_attr_current_temperature t (set_current_temp t (self w)))
                (trace w))
  | Ok None => (Ok tt, w)
  | Raise e => (Raise e, w)
  end.
Proof.
  unfold update_current_temperature, temperature_of_update.
  destruct (state !! "temp") as [v |]; [| reflexivity].
  destruct (isinstance_int_float v); [| reflexivity].
  unfold_monad. destruct (py_float v) as [temp | e]; [| reflexivity].
  destruct (fle MIN_TEMP temp && fle temp MAX_TEMP); reflexivity.
Qed.

Lemma update_target_temperature_run state w :
  update_target_temperature state w =
  match temperature_of_update state "um_max_temp" with
  | Ok (Some t) =>
      (Ok tt, mkWorld (set_attr_target_temperature (VFloat t)
                         (set_target_temp (VFloat t) (self w)))
                (trace w))
  | Ok None => (Ok tt, w)
  | Raise e => (Raise e, w)
  end.
Proof.
  unfold update_target_temperature, temperature_of_update.
  destruct (state !! "um_max_temp") as [v |]; [| reflexivity].
  destruct (isinstance_int_float v); [| reflexivity].
  unfold_monad. destruct (py_float v) as [temp | e]; [| reflexivity].
  destruct (fle MIN_TEMP temp && fle temp MAX_TEMP); reflexivity.
Qed.

Lemma update_status_run state w :
  update_status state w =
  (Ok tt,
   match status_of_update state with
   | Some (m, p, a) =>
       mkWorld (set_attr_hvac_action a
                  (set_attr_preset_mode p (set_attr_hvac_mode m (self w))))
         (trace w)
   | None => w
   end).
Proof.
  unfold update_status, status_of_update.
  destruct (state !! "status") as [v |]; [destruct v |]; try reflexivity.
  cbv zeta.
  destruct (String.eqb (lower s) "comfort"); [reflexivity |].
  destruct (String.eqb (lower s) "eco"); [reflexivity |].
  destruct (String.eqb (lower s) "ice"); reflexivity.
Qed.

Lemma handle_update_self state w :
  self (exec (_handle_update state) w) = apply_update state (self w).
Proof.
  unfold exec, apply_update. rewrite handle_update_stages.
  unfold try_except, mbind, M_bind.
  rewrite update_current_temperature_run.
  destruct (temperature_of_update state "temp") as [[t1 |] | e1];
    [| | reflexivity].
  all: rewrite update_target_temperature_run;
    destruct (temperature_of_update state "um_max_temp") as [[t2 |] | e2];
    [| | reflexivity].
  all: rewrite update_status_run;
    destruct (status_of_update state) as [[[m p] a] |]; reflexivity.
Qed.

(** Reduce attribute assignments and reads on an explicit record. *)
Ltac record_compute :=
  cbv [set_attr_hvac_mode set_attr_current_temperature
       set_attr_target_temperature set_attr_preset_mode set_attr_hvac_action
       set_current_temp set_target_temp set_available set_device_status
       set_online set_last_seen
       ws device_id _device_info _attr_available _attr_min_temp
       _attr_max_temp _attr_hvac_mode _attr_current_temperature
       _attr_target_temperature _attr_preset_mode _attr_hvac_action
       _current_temp _target_temp _available _device_model _device_category
       _device_status _online _last_seen default from_option id].

Lemma apply_update_idempotent state h :
  apply_update state (apply_update state h) = apply_update state h.
Proof.
  unfold apply_update, copy_through, dict_get.
  destruct (temperature_of_update state "temp") as [[t1 |] | e1];
    destruct (temperature_of_update state "um_max_temp") as [[t2 |] | e2];
    destruct (status_of_update state) as [[[m p] a] |];
    destruct (state !! "deviceStatus"), (state !! "online"),
      (state !! "lastSeen");
    destruct h; record_compute; reflexivity.
Qed.

(** X19. Updates are idempotent on the entity: handling the same update a
    second time leaves every attribute as the first handling left it. *)
Theorem handle_update_idempotent state w :
  self (exec (_handle_update state) (exec (_handle_update state) w))
  = self (exec (_handle_update state) w).
Proof.
  rewrite !handle_update_self. apply apply_update_idempotent.
Qed.

(** X20. No update and no command changes what identifies the entity: the
    device id, the device record, the model, the category and the bounds of
    the target temperature stay as the constructor set them. *)
Theorem operations_keep_identity o w :
  identity_attrs (self (exec (run_op o) w)) = identity_attrs (self w).
Proof.
  revert w. change (keeps identity_attrs (run_op o)).
  destruct o; simpl run_op.
  - unfold _handle_update. keeps_auto.
  - unfold async_set_hvac_mode. keeps_auto.
  - unfold async_set_preset_mode. keeps_auto.
  - unfold async_set_temperature. keeps_auto.
Qed.
